(** * AgentConfigTester: a shallow embedding of [test-agent-config.py]

    The script loads a CloudFormation template with [yaml.safe_load], runs
    five checks over the parsed document, prints a report and finally asks
    CloudFormation to validate the template.  The document is a dynamically
    typed Python value, so the embedding starts with the fragment of Python
    the script relies on: truthiness, [in], subscripting, [dict.get], [len],
    exceptions and [print]. *)

From Stdlib Require Import ZArith List String Ascii Bool Lia.
From Stdlib.Strings Require Import Byte.
From Stdlib Require Import SpecFloat.
Import ListNotations.
Open Scope string_scope.
Open Scope list_scope.

(** ** Python values *)

Module Py.

(** A Python [str] is a sequence of Unicode code points; [len] counts code
    points, not bytes. *)
Definition str := list N.

(** The [str] denoted by an ASCII literal of the source. *)
Definition lit (s : string) : str := map N_of_ascii (list_ascii_of_string s).

Fixpoint str_eqb (a b : str) : bool :=
  match a, b with
  | [], [] => true
  | x :: a', y :: b' => N.eqb x y && str_eqb a' b'
  | _, _ => false
  end.

Fixpoint is_prefix (p s : str) : bool :=
  match p, s with
  | [], _ => true
  | x :: p', y :: s' => N.eqb x y && is_prefix p' s'
  | _ :: _, [] => false
  end.

(** [p in s] on two strings: [p] occurs in [s] as a contiguous run. *)
Fixpoint is_substring (p s : str) : bool :=
  is_prefix p s ||
  match s with
  | [] => false
  | _ :: s' => is_substring p s'
  end.

(** What [yaml.safe_load] builds: null, booleans, integers, floats,
    strings, sequences and mappings, and from the tags [!!set], [!!binary],
    [!!timestamp], [!!omap] and [!!pairs] a [set], [bytes], a
    [datetime.date] or [datetime.datetime], and lists of 2-tuples.  A [dict]
    keeps its insertion order; its keys are pairwise distinct, and so are
    the elements of a [set]. *)
#[local] Set Warnings "-register-all".
Inductive value : Type :=
| VNone
| VBool (b : bool)
| VInt (z : Z)
| VFloat (f : spec_float)
| VStr (s : str)
| VList (l : list value)
| VDict (d : list (value * value))
| VSet (l : list value)
| VBytes (b : list Byte.byte)
| VDate (year month day : Z)
| VDateTime (year month day hour minute second microsecond : Z)
            (utcoffset : option Z)
| VTuple (l : list value).

Definition type_name (v : value) : string :=
  match v with
  | VNone => "NoneType"
  | VBool _ => "bool"
  | VInt _ => "int"
  | VFloat _ => "float"
  | VStr _ => "str"
  | VList _ => "list"
  | VDict _ => "dict"
  | VSet _ => "set"
  | VBytes _ => "bytes"
  | VDate _ _ _ => "datetime.date"
  | VDateTime _ _ _ _ _ _ _ _ => "datetime.datetime"
  | VTuple _ => "tuple"
  end.

(** Exceptions, all of them subclasses of [Exception].  [EnvError] stands for
    whatever [open], [yaml] or [boto3] raise. *)
Inductive exn : Type :=
| TypeError (msg : string)
| AttributeError (msg : string)
| KeyError (key : str)
| EnvError (cls msg : string).

Inductive result (A : Type) : Type :=
| Ok (a : A)
| Raise (e : exn).
Arguments Ok {A} a.
Arguments Raise {A} e.

(** [bool(v)] *)
Definition truthy (v : value) : bool :=
  match v with
  | VNone => false
  | VBool b => b
  | VInt z => negb (Z.eqb z 0)
  | VFloat (S754_zero _) => false
  | VFloat _ => true
  | VStr [] => false
  | VStr _ => true
  | VList [] => false
  | VList _ => true
  | VDict [] => false
  | VDict _ => true
  | VSet [] => false
  | VSet _ => true
  | VBytes [] => false
  | VBytes _ => true
  | VDate _ _ _ => true
  | VDateTime _ _ _ _ _ _ _ _ => true
  | VTuple [] => false
  | VTuple _ => true
  end.

(** [v == s] for a string [s]: a [str] equals only an equal [str]. *)
Definition eq_str (v : value) (s : str) : bool :=
  match v with
  | VStr t => str_eqb t s
  | _ => false
  end.

(** [v == l] for a list [l] of strings. *)
Fixpoint eq_strs (vs : list value) (l : list str) : bool :=
  match vs, l with
  | [], [] => true
  | v :: vs', s :: l' => eq_str v s && eq_strs vs' l'
  | _, _ => false
  end.

(** [v != l] for a list [l] of strings. *)
Definition ne_str_list (v : value) (l : list str) : bool :=
  match v with
  | VList vs => negb (eq_strs vs l)
  | _ => true
  end.

(** The entry of a dict under a string key. *)
Fixpoint dict_find (k : str) (d : list (value * value)) : option value :=
  match d with
  | [] => None
  | (k', v) :: d' => if eq_str k' k then Some v else dict_find k d'
  end.

(** [k in v] for a string [k] *)
Definition contains (k : str) (v : value) : result bool :=
  match v with
  | VDict d => Ok (match dict_find k d with Some _ => true | None => false end)
  | VList l | VSet l | VTuple l => Ok (existsb (fun x => eq_str x k) l)
  | VStr s => Ok (is_substring k s)
  | VBytes _ => Raise (TypeError "a bytes-like object is required, not 'str'")
  | _ => Raise (TypeError ("argument of type '" ++ type_name v ++ "' is not iterable"))
  end.

(** [v[k]] for a string [k] *)
Definition subscript (v : value) (k : str) : result value :=
  match v with
  | VDict d =>
      match dict_find k d with
      | Some x => Ok x
      | None => Raise (KeyError k)
      end
  | VList _ => Raise (TypeError "list indices must be integers or slices, not str")
  | VTuple _ => Raise (TypeError "tuple indices must be integers or slices, not str")
  | VBytes _ => Raise (TypeError "byte indices must be integers or slices, not str")
  | VStr _ => Raise (TypeError "string indices must be integers")
  | _ => Raise (TypeError ("'" ++ type_name v ++ "' object is not subscriptable"))
  end.

(** [v.get(k, default)] *)
Definition get (v : value) (k : str) (default : value) : result value :=
  match v with
  | VDict d =>
      match dict_find k d with
      | Some x => Ok x
      | None => Ok default
      end
  | _ => Raise (AttributeError ("'" ++ type_name v ++ "' object has no attribute 'get'"))
  end.

(** [len(v)] *)
Definition len (v : value) : result Z :=
  match v with
  | VStr s => Ok (Z.of_nat (List.length s))
  | VList l | VSet l | VTuple l => Ok (Z.of_nat (List.length l))
  | VDict d => Ok (Z.of_nat (List.length d))
  | VBytes b => Ok (Z.of_nat (List.length b))
  | _ => Raise (TypeError ("object of type '" ++ type_name v ++ "' has no len()"))
  end.

End Py.
Export Py.

(** ** Printed lines

    A printed line is the f-string that produced it: literal text and the
    values formatted into it ([V v] is [str(v)], [E e] is [str(e)]). *)

Inductive piece : Type :=
| T (s : string)
| V (v : value)
| E (e : exn).

Definition line := list piece.

Definition nl : string := String (ascii_of_nat 10) EmptyString.

Fixpoint times (s : string) (n : nat) : string :=
  match n with
  | O => EmptyString
  | S n' => s ++ times s n'
  end.

(** ** The tester object and its methods *)

Record tester : Type := mkTester {
  template_file : string;
  template : value
}.

(** [AgentConfigTester(template_file)] *)
Definition init (path : string) : tester :=
  {| template_file := path; template := VNone |}.

(** A method call ends by returning or raising; either way it leaves the
    object in some state and has printed some lines. *)
Record outcome (A : Type) : Type := mkOutcome {
  result_of : result A;
  state_of : tester;
  printed : list line
}.
Arguments mkOutcome {A}.
Arguments result_of {A}.
Arguments state_of {A}.
Arguments printed {A}.

Definition M (A : Type) : Type := tester -> outcome A.

Definition ret {A} (a : A) : M A :=
  fun s => mkOutcome (Ok a) s [].

Definition bind {A B} (m : M A) (k : A -> M B) : M B :=
  fun s =>
    match m s with
    | mkOutcome (Ok a) s' o =>
        match k a s' with
        | mkOutcome r s'' o' => mkOutcome r s'' (o ++ o')
        end
    | mkOutcome (Raise e) s' o => mkOutcome (Raise e) s' o
    end.

Definition lift {A} (r : result A) : M A :=
  fun s => mkOutcome r s [].

Definition print (l : line) : M unit :=
  fun s => mkOutcome (Ok tt) s [l].

Definition self_template : M value :=
  fun s => mkOutcome (Ok (template s)) s [].

Definition self_template_file : M string :=
  fun s => mkOutcome (Ok (template_file s)) s [].

Definition set_template (v : value) : M unit :=
  fun s => mkOutcome (Ok tt) {| template_file := template_file s; template := v |} [].

(** [try: m  except Exception as e: h e] *)
Definition try_except {A} (m : M A) (h : exn -> M A) : M A :=
  fun s =>
    match m s with
    | mkOutcome (Ok a) s' o => mkOutcome (Ok a) s' o
    | mkOutcome (Raise e) s' o =>
        match h e s' with
        | mkOutcome r s'' o' => mkOutcome r s'' (o ++ o')
        end
    end.

Declare Scope py_scope.
Delimit Scope py_scope with py.
Notation "x <- m ;; k" := (bind m (fun x => k))
  (at level 100, m at next level, right associativity) : py_scope.
Notation "m ;; k" := (bind m (fun _ => k))
  (at level 100, right associativity) : py_scope.
Open Scope py_scope.

(** [for x in xs: body x] *)
Fixpoint for_each {A} (xs : list A) (body : A -> M unit) : M unit :=
  match xs with
  | [] => ret tt
  | x :: xs' => body x ;; for_each xs' body
  end.

(** [if c: m] *)
Definition when (c : bool) (m : M unit) : M unit :=
  if c then m else ret tt.

(** [not self.template or name not in self.template], evaluated left to
    right with the short circuit of [or]. *)
Definition no_section (name : str) : M bool :=
  tpl <- self_template ;;
  if negb (truthy tpl) then ret true
  else (present <- lift (contains name tpl) ;; ret (negb present)).

(** ** The methods of [AgentConfigTester] *)

(** What a required parameter is expected to declare: the entries of the
    [required_checks] dict. *)
Record expectation : Type := mkExpectation {
  exp_Type : str;
  exp_AllowedValues : option (list str)
}.

Definition required_checks : list (str * expectation) :=
  [ (lit "AgentName", mkExpectation (lit "String") None);
    (lit "FoundationModel", mkExpectation (lit "String") None);
    (lit "Environment",
      mkExpectation (lit "String") (Some [lit "dev"; lit "test"; lit "prod"])) ].

Definition expected_resources : list str :=
  [ lit "BedrockAgentRole"; lit "BedrockAgent"; lit "BedrockAgentAlias";
    lit "AgentLogGroup" ].

Definition expected_outputs : list str :=
  [ lit "AgentId"; lit "AgentAliasId"; lit "AgentRoleArn"; lit "AgentAliasArn";
    lit "FoundationModelUsed" ].

(** The body of the loop of [check_parameters]. *)
Definition check_parameter (parameters : value) (entry : str * expectation) : M unit :=
  let '(param_name, expected) := entry in
  present <- lift (contains param_name parameters) ;;
  if negb present then
    print [T "❌ Missing parameter: "; V (VStr param_name)]
  else
    param <- lift (subscript parameters param_name) ;;
    default <- lift (get param (lit "Default") (VStr (lit "No default"))) ;;
    print [T "✅ "; V (VStr param_name); T ": "; V default] ;;
    ty <- lift (get param (lit "Type") VNone) ;;
    when (negb (eq_str ty (exp_Type expected)))
      (got <- lift (get param (lit "Type") VNone) ;;
       print [T "  ⚠️  Type mismatch: expected "; V (VStr (exp_Type expected));
              T ", got "; V got]) ;;
    match exp_AllowedValues expected with
    | Some allowed =>
        declared <- lift (contains (lit "AllowedValues") param) ;;
        if negb declared then
          print [T "  ⚠️  Missing AllowedValues for "; V (VStr param_name)]
        else
          values <- lift (subscript param (lit "AllowedValues")) ;;
          when (ne_str_list values allowed)
            (print [T "  ⚠️  AllowedValues mismatch for "; V (VStr param_name)])
    | None => ret tt
    end.

Definition check_parameters : M bool :=
  missing <- no_section (lit "Parameters") ;;
  if missing then
    print [T "❌ No Parameters section found in template"] ;;
    ret false
  else
    tpl <- self_template ;;
    parameters <- lift (subscript tpl (lit "Parameters")) ;;
    print [T nl; T "🔍 Checking Parameters:"] ;;
    for_each required_checks (check_parameter parameters) ;;
    ret true.

(** The body of the loop of [check_resources]. *)
Definition check_resource (resources : value) (resource : str) : M unit :=
  present <- lift (contains resource resources) ;;
  if present then
    entry <- lift (subscript resources resource) ;;
    resource_type <- lift (get entry (lit "Type") (VStr (lit "Unknown"))) ;;
    print [T "✅ "; V (VStr resource); T ": "; V resource_type]
  else
    print [T "❌ Missing resource: "; V (VStr resource)].

Definition check_resources : M bool :=
  missing <- no_section (lit "Resources") ;;
  if missing then
    print [T "❌ No Resources section found in template"] ;;
    ret false
  else
    tpl <- self_template ;;
    resources <- lift (subscript tpl (lit "Resources")) ;;
    print [T nl; T "🔍 Checking Resources:"] ;;
    for_each expected_resources (check_resource resources) ;;
    ret true.

(** Lines 115 to 142 of [check_bedrock_agent_config]: the report on the
    property bag of the agent. *)
Definition report_agent (properties : value) : M bool :=
  print [T nl; T "🔍 Checking Bedrock Agent Configuration:"] ;;
  foundation_model <-
    lift (get properties (lit "FoundationModel") (VStr (lit "Not set"))) ;;
  print [T "✅ Foundation Model: "; V foundation_model] ;;
  has_instruction <- lift (contains (lit "Instruction") properties) ;;
  (if has_instruction then
     instruction <- lift (subscript properties (lit "Instruction")) ;;
     instruction_length <- lift (len instruction) ;;
     print [T "✅ Agent Instruction: "; V (VInt instruction_length);
            T " characters"]
   else
     print [T "❌ Missing Agent Instruction"]) ;;
  idle_ttl <-
    lift (get properties (lit "IdleSessionTTLInSeconds") (VStr (lit "Not set"))) ;;
  print [T "✅ Idle Session TTL: "; V idle_ttl; T " seconds"] ;;
  has_override <- lift (contains (lit "PromptOverrideConfiguration") properties) ;;
  (if has_override then
     print [T "✅ Prompt Override Configuration: Present"] ;;
     poc <- lift (subscript properties (lit "PromptOverrideConfiguration")) ;;
     has_prompts <- lift (contains (lit "PromptConfigurations") poc) ;;
     when has_prompts
       (prompts <- lift (subscript poc (lit "PromptConfigurations")) ;;
        prompt_count <- lift (len prompts) ;;
        print [T "   📝 "; V (VInt prompt_count);
               T " prompt configurations found"])
   else
     print [T "⚠️  No Prompt Override Configuration"]) ;;
  ret true.

Definition check_bedrock_agent_config : M bool :=
  missing <- no_section (lit "Resources") ;;
  if missing then ret false
  else
    tpl <- self_template ;;
    resources <- lift (subscript tpl (lit "Resources")) ;;
    present <- lift (contains (lit "BedrockAgent") resources) ;;
    if negb present then
      print [T "❌ BedrockAgent resource not found"] ;;
      ret false
    else
      agent <- lift (subscript resources (lit "BedrockAgent")) ;;
      properties <- lift (get agent (lit "Properties") (VDict [])) ;;
      report_agent properties.

(** The body of the loop of [check_outputs]. *)
Definition check_output (outputs : value) (output : str) : M unit :=
  present <- lift (contains output outputs) ;;
  if present then print [T "✅ "; V (VStr output)]
  else print [T "❌ Missing output: "; V (VStr output)].

Definition check_outputs : M bool :=
  missing <- no_section (lit "Outputs") ;;
  if missing then
    print [T "❌ No Outputs section found in template"] ;;
    ret false
  else
    tpl <- self_template ;;
    outputs <- lift (subscript tpl (lit "Outputs")) ;;
    print [T nl; T "🔍 Checking Outputs:"] ;;
    for_each expected_outputs (check_output outputs) ;;
    ret true.

(** [if name in self.template: print(f"{name}: {len(self.template[name])}")] *)
Definition summary_count (name : string) : M unit :=
  tpl <- self_template ;;
  present <- lift (contains (lit name) tpl) ;;
  when present
    (tpl' <- self_template ;;
     section <- lift (subscript tpl' (lit name)) ;;
     count <- lift (len section) ;;
     print [T name; T ": "; V (VInt count)]).

Definition generate_summary : M unit :=
  print [T nl; T "📊 Template Summary:"] ;;
  print [T (times "=" 50)] ;;
  tpl <- self_template ;;
  when (truthy tpl)
    (description <- lift (get tpl (lit "Description") (VStr (lit "No description"))) ;;
     print [T "Description: "; V description] ;;
     version <-
       lift (get tpl (lit "AWSTemplateFormatVersion") (VStr (lit "Not specified"))) ;;
     print [T "AWSTemplateFormatVersion: "; V version] ;;
     summary_count "Parameters" ;;
     summary_count "Resources" ;;
     summary_count "Outputs").

(** ** The outside world

    The file system, the YAML parser and the CloudFormation client are
    collaborators of the script: each call returns or raises. *)
Record env : Type := mkEnv {
  (** [open(path, 'r')] and reading the text of the file *)
  read_text : string -> result string;
  (** [yaml.safe_load] on that text *)
  yaml_safe_load : string -> result value;
  (** [boto3.client('cloudformation')] *)
  boto3_client : result unit;
  (** [cf_client.validate_template(TemplateBody=...)] *)
  validate_template : string -> result unit
}.

Section Methods.

Variable w : env.

Definition load_template : M bool :=
  try_except
    (path <- self_template_file ;;
     text <- lift (read_text w path) ;;
     document <- lift (yaml_safe_load w text) ;;
     set_template document ;;
     print [T "✅ Template loaded successfully: "; T path] ;;
     ret true)
    (fun e =>
       print [T "❌ Error loading template: "; E e] ;;
       ret false).

Definition validate_template_syntax : M bool :=
  try_except
    (lift (boto3_client w) ;;
     path <- self_template_file ;;
     template_body <- lift (read_text w path) ;;
     lift (validate_template w template_body) ;;
     print [T "✅ CloudFormation template syntax is valid"] ;;
     ret true)
    (fun e =>
       print [T "❌ Template validation error: "; E e] ;;
       ret false).

(** The list [checks] of [run_all_checks], each method with its [__name__]. *)
Definition checks : list (string * M bool) :=
  [ ("load_template", load_template);
    ("check_parameters", check_parameters);
    ("check_resources", check_resources);
    ("check_bedrock_agent_config", check_bedrock_agent_config);
    ("check_outputs", check_outputs) ].

(** The loop of [run_all_checks]: [passed] is threaded through the steps. *)
Fixpoint run_checks (cs : list (string * M bool)) (passed : Z) : M Z :=
  match cs with
  | [] => ret passed
  | (name, check) :: cs' =>
      passed' <-
        try_except
          (ok <- check ;; ret (if ok : bool then (passed + 1)%Z else passed))
          (fun e =>
             print [T "❌ Error in "; T name; T ": "; E e] ;;
             ret passed) ;;
      run_checks cs' passed'
  end.

Definition run_all_checks : M bool :=
  print [T "🚀 Starting AWS Bedrock Agent Template Validation"] ;;
  print [T (times "=" 60)] ;;
  passed <- run_checks checks 0%Z ;;
  generate_summary ;;
  let total := Z.of_nat (List.length checks) in
  print [T nl; T "✅ Validation complete: "; V (VInt passed); T "/";
         V (VInt total); T " checks passed"] ;;
  (if Z.eqb passed total then print [T "🎉 Template is ready for deployment!"]
   else print [T "⚠️  Please review and fix the issues above"]) ;;
  ret (Z.eqb passed total).

Definition main_body : M unit :=
  success <- run_all_checks ;;
  print [T nl; T "🔍 Attempting AWS CloudFormation validation..."] ;;
  try_except
    (validate_template_syntax ;; ret tt)
    (fun e =>
       print [T "⚠️  AWS validation skipped: "; E e] ;;
       print [T "   Make sure you have AWS credentials configured"]).

(** [main()]: a fresh tester on the default path. *)
Definition main : outcome unit :=
  main_body (init "bedrock-agent-template.yaml").

End Methods.

(** ** Sample documents *)

(** A string value given by an ASCII literal. *)
Definition Str (s : string) : value := VStr (lit s).

(** The example document of the specification. *)
Definition example_document : value :=
  VDict
    [ (Str "Parameters",
        VDict
          [ (Str "AgentName", VDict [(Str "Type", Str "String"); (Str "Default", Str "a")]);
            (Str "FoundationModel", VDict [(Str "Type", Str "String")]);
            (Str "Environment",
              VDict [(Str "Type", Str "String");
                     (Str "AllowedValues", VList [Str "dev"; Str "test"; Str "prod"])]) ]);
      (Str "Resources",
        VDict
          [ (Str "BedrockAgentRole", VDict [(Str "Type", Str "X")]);
            (Str "BedrockAgent",
              VDict [(Str "Type", Str "Y");
                     (Str "Properties",
                       VDict [(Str "FoundationModel", Str "m");
                              (Str "Instruction", Str "hello");
                              (Str "IdleSessionTTLInSeconds", VInt 600)])]);
            (Str "BedrockAgentAlias", VDict [(Str "Type", Str "Z")]);
            (Str "AgentLogGroup", VDict [(Str "Type", Str "W")]) ]);
      (Str "Outputs",
        VDict
          [ (Str "AgentId", VDict []); (Str "AgentAliasId", VDict []);
            (Str "AgentRoleArn", VDict []); (Str "AgentAliasArn", VDict []);
            (Str "FoundationModelUsed", VDict []) ]) ].

(** A world whose template file parses to [doc] and whose CloudFormation
    call answers [cf]. *)
Definition world_of (doc : value) (cf : result unit) : env :=
  {| read_text := fun _ => Ok "";
     yaml_safe_load := fun _ => Ok doc;
     boto3_client := Ok tt;
     validate_template := fun _ => cf |}.

Definition loaded (doc : value) : tester :=
  {| template_file := "bedrock-agent-template.yaml"; template := doc |}.

(** ** Shapes of documents

    The checks never test the type of what they look up: a lookup on a value
    of the wrong type raises.  These predicates name the shapes on which the
    lookups of each check go through. *)

Definition is_dict (v : value) : bool :=
  match v with
  | VDict _ => true
  | _ => false
  end.

(** Strings, lists and dicts: the values a template written in plain YAML
    has where the checks use [in], [len] and subscripts. *)
Definition is_sized (v : value) : bool :=
  match v with
  | VStr _ | VList _ | VDict _ => true
  | _ => false
  end.

(** Values on which [k in v] is defined for a string [k]: strings, lists,
    dicts, sets and tuples. *)
Definition supports_in (v : value) : bool :=
  match v with
  | VStr _ | VList _ | VDict _ | VSet _ | VTuple _ => true
  | _ => false
  end.

(** Values on which [len] is defined: those, and bytes. *)
Definition has_len (v : value) : bool :=
  match v with
  | VStr _ | VList _ | VDict _ | VSet _ | VTuple _ | VBytes _ => true
  | _ => false
  end.

(** [p] holds of the entry under [k], if there is one. *)
Definition entry_is (p : value -> bool) (k : str) (d : list (value * value)) : bool :=
  match dict_find k d with
  | Some v => p v
  | None => true
  end.

(** Every required parameter that is declared is a mapping. *)
Definition parameters_shape (ps : list (value * value)) : bool :=
  forallb (fun entry => entry_is is_dict (fst entry) ps) required_checks.

(** Every expected resource that is declared is a mapping. *)
Definition resources_shape (rs : list (value * value)) : bool :=
  forallb (fun name => entry_is is_dict name rs) expected_resources.

(** A prompt-override block: a mapping whose prompt configurations, if any,
    have a length. *)
Definition override_shape (poc : value) : bool :=
  match poc with
  | VDict q => entry_is is_sized (lit "PromptConfigurations") q
  | _ => false
  end.

(** A property bag whose instruction, if any, has a length and whose
    prompt-override block, if any, is well shaped. *)
Definition properties_shape (p : list (value * value)) : bool :=
  entry_is is_sized (lit "Instruction") p &&
  entry_is override_shape (lit "PromptOverrideConfiguration") p.

(** The property bag of an agent resource: [agent.get('Properties', {})]. *)
Definition property_bag (a : list (value * value)) : value :=
  match dict_find (lit "Properties") a with
  | Some v => v
  | None => VDict []
  end.

Definition agent_shape (agent : value) : bool :=
  match agent with
  | VDict a =>
      match property_bag a with
      | VDict p => properties_shape p
      | _ => false
      end
  | _ => false
  end.

(** A document on which no check raises: a mapping whose three sections are
    mappings of the shapes above and whose [BedrockAgent] resource exists. *)
Definition well_shaped (doc : value) : bool :=
  match doc with
  | VDict d =>
      match dict_find (lit "Parameters") d,
            dict_find (lit "Resources") d,
            dict_find (lit "Outputs") d with
      | Some (VDict ps), Some (VDict rs), Some (VDict _) =>
          parameters_shape ps && resources_shape rs &&
          match dict_find (lit "BedrockAgent") rs with
          | Some agent => agent_shape agent
          | None => false
          end
      | _, _, _ => false
      end
  | _ => false
  end.

(** The three sections, all expected resources and all expected outputs
    are declared. *)
Definition all_expected_present (doc : value) : bool :=
  match doc with
  | VDict d =>
      match dict_find (lit "Parameters") d,
            dict_find (lit "Resources") d,
            dict_find (lit "Outputs") d with
      | Some (VDict _), Some (VDict rs), Some (VDict os) =>
          forallb (fun name => match dict_find name rs with Some _ => true | None => false end)
                  expected_resources &&
          forallb (fun name => match dict_find name os with Some _ => true | None => false end)
                  expected_outputs
      | _, _, _ => false
      end
  | _ => false
  end.

(** The line that reports the tally. *)
Definition tally_line (passed : Z) : line :=
  [T nl; T "✅ Validation complete: "; V (VInt passed); T "/"; V (VInt 5);
   T " checks passed"].

(** ** Further documents *)

(** The example document with a numeric [Instruction]. *)
Definition numeric_instruction_document : value :=
  VDict
    [ (Str "Parameters",
        VDict
          [ (Str "AgentName", VDict [(Str "Type", Str "String"); (Str "Default", Str "a")]);
            (Str "FoundationModel", VDict [(Str "Type", Str "String")]);
            (Str "Environment",
              VDict [(Str "Type", Str "String");
                     (Str "AllowedValues", VList [Str "dev"; Str "test"; Str "prod"])]) ]);
      (Str "Resources",
        VDict
          [ (Str "BedrockAgentRole", VDict [(Str "Type", Str "X")]);
            (Str "BedrockAgent",
              VDict [(Str "Type", Str "Y");
                     (Str "Properties",
                       VDict [(Str "FoundationModel", Str "m");
                              (Str "Instruction", VInt 42);
                              (Str "IdleSessionTTLInSeconds", VInt 600)])]);
            (Str "BedrockAgentAlias", VDict [(Str "Type", Str "Z")]);
            (Str "AgentLogGroup", VDict [(Str "Type", Str "W")]) ]);
      (Str "Outputs",
        VDict
          [ (Str "AgentId", VDict []); (Str "AgentAliasId", VDict []);
            (Str "AgentRoleArn", VDict []); (Str "AgentAliasArn", VDict []);
            (Str "FoundationModelUsed", VDict []) ]) ].

(** A top-level sequence: [- a]. *)
Definition sequence_document : value := VList [Str "a"].

(** [Parameters: {AgentName: x}]: the parameter is a plain string. *)
Definition scalar_parameter_document : value :=
  VDict [ (Str "Parameters", VDict [ (Str "AgentName", Str "x") ]) ].

(** [Parameters: {}] and nothing else. *)
Definition empty_parameters_document : value :=
  VDict [ (Str "Parameters", VDict []) ].

(** [Parameters: {AgentName: {Type: Number}, Environment: {Type: String,
    AllowedValues: [dev, prod]}}] *)
Definition mismatched_parameters_document : value :=
  VDict
    [ (Str "Parameters",
        VDict
          [ (Str "AgentName", VDict [(Str "Type", Str "Number")]);
            (Str "Environment",
              VDict [(Str "Type", Str "String");
                     (Str "AllowedValues", VList [Str "dev"; Str "prod"])]) ]) ].

(** [Resources: {BedrockAgent: x}]: the resource is a plain string. *)
Definition scalar_agent_document : value :=
  VDict [ (Str "Resources", VDict [ (Str "BedrockAgent", Str "x") ]) ].

(** [Resources: {BedrockAgentRole: {Type: X}}]: no agent resource. *)
Definition no_agent_document : value :=
  VDict [ (Str "Resources", VDict [ (Str "BedrockAgentRole", VDict [(Str "Type", Str "X")]) ]) ].

(** A template whose [Parameters:] section is left empty, which YAML reads
    as null. *)
Definition null_parameters_document : value :=
  VDict [ (Str "Parameters", VNone) ].

(** An agent with the given property bag, alone in [Resources]. *)
Definition agent_document (properties : list (value * value)) : value :=
  VDict
    [ (Str "Resources",
        VDict [ (Str "BedrockAgent",
                  VDict [ (Str "Type", Str "AWS::Bedrock::Agent");
                          (Str "Properties", VDict properties) ]) ]) ].

Definition two_prompts : value :=
  VDict [ (Str "PromptConfigurations", VList [VDict []; VDict []]) ].

(** The failure boto3 reports when no credentials are configured. *)
Definition no_credentials : exn :=
  EnvError "NoCredentialsError" "Unable to locate credentials".

(** The hint that [main] prints in its own exception handler. *)
Definition credentials_hint : line :=
  [T "   Make sure you have AWS credentials configured"].

Definition default_path : string := "bedrock-agent-template.yaml".

(** ** Vocabulary of the statements *)

(** A call that returns [a], leaves the object as it was and prints [o]. *)
Definition returns {A} (m : M A) (s : tester) (a : A) (o : list line) : Prop :=
  m s = mkOutcome (Ok a) s o.

(** A call that never assigns to a field of the object, whether it returns
    or raises. *)
Definition reads_only {A} (m : M A) : Prop :=
  forall s, state_of (m s) = s.

(** A call that never lets an exception escape. *)
Definition never_raises {A} (m : M A) : Prop :=
  forall s, exists a, result_of (m s) = Ok a.

Definition no_parameters_line : line := [T "❌ No Parameters section found in template"].
Definition no_resources_line : line := [T "❌ No Resources section found in template"].
Definition no_outputs_line : line := [T "❌ No Outputs section found in template"].


Definition summary_head : list line :=
  [ [T nl; T "📊 Template Summary:"]; [T (times "=" 50)] ].

Definition with_template (s : tester) (doc : value) : tester :=
  {| template_file := template_file s; template := doc |}.

Definition loaded_line (s : tester) : line :=
  [T "✅ Template loaded successfully: "; T (template_file s)].

Definition step_error_line (name : string) (e : exn) : line :=
  [T "❌ Error in "; T name; T ": "; E e].

(** The four checks that follow [load_template] in [checks]. *)
Definition later_checks : list (string * M bool) :=
  [ ("check_parameters", check_parameters);
    ("check_resources", check_resources);
    ("check_bedrock_agent_config", check_bedrock_agent_config);
    ("check_outputs", check_outputs) ].

Definition run_head : list line :=
  [ [T "🚀 Starting AWS Bedrock Agent Template Validation"]; [T (times "=" 60)] ].

Definition verdict_line (passed : Z) : line :=
  if Z.eqb passed 5 then [T "🎉 Template is ready for deployment!"]
  else [T "⚠️  Please review and fix the issues above"].

(** The tally after five steps that all returned. *)
Definition tally (bs : list bool) : Z :=
  fold_left (fun passed (b : bool) => if b then (passed + 1)%Z else passed) bs 0%Z.

(** A document without the three sections: nothing was parsed (null, an
    empty mapping, any falsy value), or a mapping without the three keys. *)
Definition lacks_sections (doc : value) : bool :=
  negb (truthy doc) ||
  match doc with
  | VDict d =>
      match dict_find (lit "Parameters") d,
            dict_find (lit "Resources") d,
            dict_find (lit "Outputs") d with
      | None, None, None => true
      | _, _, _ => false
      end
  | _ => false
  end.

Definition missing_parameter_line (name : string) : line :=
  [T "❌ Missing parameter: "; V (Str name)].
Definition missing_instruction_line : line := [T "❌ Missing Agent Instruction"].
Definition instruction_line (n : Z) : line :=
  [T "✅ Agent Instruction: "; V (VInt n); T " characters"].
Definition prompt_count_line (n : Z) : line :=
  [T "   📝 "; V (VInt n); T " prompt configurations found"].
Definition no_override_line : line := [T "⚠️  No Prompt Override Configuration"].
Definition validation_error_line (e : exn) : line :=
  [T "❌ Template validation error: "; E e].

(** An agent whose [Properties:] is left empty, which YAML reads as null. *)
Definition null_properties_document : value :=
  VDict
    [ (Str "Resources",
        VDict [ (Str "BedrockAgent",
                  VDict [ (Str "Type", Str "AWS::Bedrock::Agent");
                          (Str "Properties", VNone) ]) ]) ].

(** A template file rewritten to hold the empty mapping. *)
Definition rewritten_world : env := world_of (VDict []) (Ok tt).

(** [Outputs:] left empty, which YAML reads as null. *)
Definition null_outputs_document : value :=
  VDict [ (Str "Outputs", VNone) ].

(** ** Vocabulary of the further properties *)

Definition load_error_line (e : exn) : line :=
  [T "❌ Error loading template: "; E e].
Definition syntax_valid_line : line :=
  [T "✅ CloudFormation template syntax is valid"].
Definition validation_attempt_line : line :=
  [T nl; T "🔍 Attempting AWS CloudFormation validation..."].

(** A step passes when it returns [True]; a step that returns [False] or
    raises does not. *)
Definition passes (r : result bool) : bool :=
  match r with
  | Ok true => true
  | _ => false
  end.

(** The documents on which [generate_summary] goes through: the falsy ones,
    and the mappings whose three sections, where present, have a length. *)
Definition summary_safe (doc : value) : bool :=
  negb (truthy doc) ||
  match doc with
  | VDict d =>
      entry_is has_len (lit "Parameters") d &&
      entry_is has_len (lit "Resources") d &&
      entry_is has_len (lit "Outputs") d
  | _ => false
  end.

(** [d.get(k, default)] on the entries of a dict. *)
Definition entry_or (k : str) (d : list (value * value)) (default : value) : value :=
  match dict_find k d with
  | Some x => x
  | None => default
  end.

Definition type_mismatch_line (expected : str) (got : value) : line :=
  [T "  ⚠️  Type mismatch: expected "; V (VStr expected); T ", got "; V got].

(** The line [check_resources] prints for one expected resource. *)
Definition resource_line (rs : list (value * value)) (name : str) : line :=
  match dict_find name rs with
  | Some (VDict r) =>
      [T "✅ "; V (VStr name); T ": "; V (entry_or (lit "Type") r (Str "Unknown"))]
  | Some _ => []
  | None => [T "❌ Missing resource: "; V (VStr name)]
  end.

(** The line [check_outputs] prints for one expected output. *)
Definition output_line (os : list (value * value)) (name : str) : line :=
  match dict_find name os with
  | Some _ => [T "✅ "; V (VStr name)]
  | None => [T "❌ Missing output: "; V (VStr name)]
  end.




(** A template whose file cannot be opened. *)
Definition missing_file_world : env :=
  {| read_text := fun _ => Raise (EnvError "FileNotFoundError" "No such file or directory");
     yaml_safe_load := fun _ => Ok VNone;
     boto3_client := Ok tt;
     validate_template := fun _ => Ok tt |}.

(** The template cannot be loaded: opening the file raises [e], or parsing
    its text does. *)
Definition load_fails (w : env) (s : tester) (e : exn) : Prop :=
  read_text w (template_file s) = Raise e \/
  exists text, read_text w (template_file s) = Ok text /\
               yaml_safe_load w text = Raise e.

(** What a step of [run_all_checks] adds to the report: what the check
    printed, and the error line when it raised. *)
Definition step_output (name : string) (r : outcome bool) : list line :=
  match result_of r with
  | Ok _ => printed r
  | Raise e => printed r ++ [step_error_line name e]
  end.

(** ** Reasoning about method calls *)

Arguments lit : simpl never.

Lemma bind_ok {A B} (m : M A) (k : A -> M B) s a s' o :
  m s = mkOutcome (Ok a) s' o ->
  bind m k s =
  mkOutcome (result_of (k a s')) (state_of (k a s')) (o ++ printed (k a s')).
Proof. intros H. unfold bind. rewrite H. destruct (k a s'); reflexivity. Qed.

Lemma bind_raise {A B} (m : M A) (k : A -> M B) s e s' o :
  m s = mkOutcome (Raise e) s' o ->
  bind m k s = mkOutcome (Raise e) s' o.
Proof. intros H. unfold bind. rewrite H. reflexivity. Qed.

Lemma result_of_bind_raise {A B} (m : M A) (k : A -> M B) s e :
  result_of (m s) = Raise e -> result_of (bind m k s) = Raise e.
Proof.
  unfold bind. destruct (m s) as [[a | e'] s' o]; simpl; intros H;
    [discriminate H | injection H as ->; reflexivity].
Qed.

Lemma bind_returns {A B} (m : M A) (k : A -> M B) s a b o o' :
  returns m s a o -> returns (k a) s b o' -> returns (bind m k) s b (o ++ o').
Proof.
  unfold returns. intros Hm Hk. rewrite (bind_ok _ _ _ _ _ _ Hm), Hk. reflexivity.
Qed.

Lemma outcome_eta {A} (r : outcome A) :
  r = mkOutcome (result_of r) (state_of r) (printed r).
Proof. destruct r; reflexivity. Qed.

Lemma reads_only_ret {A} (a : A) : reads_only (ret a).
Proof. intro s; reflexivity. Qed.

Lemma reads_only_lift {A} (r : result A) : reads_only (lift r).
Proof. intro s; reflexivity. Qed.

Lemma reads_only_print l : reads_only (print l).
Proof. intro s; reflexivity. Qed.

Lemma reads_only_self_template : reads_only self_template.
Proof. intro s; reflexivity. Qed.

Lemma reads_only_self_template_file : reads_only self_template_file.
Proof. intro s; reflexivity. Qed.

Lemma reads_only_bind {A B} (m : M A) (k : A -> M B) :
  reads_only m -> (forall a, reads_only (k a)) -> reads_only (bind m k).
Proof.
  intros Hm Hk s. unfold bind. specialize (Hm s).
  destruct (m s) as [[a | e] s' o]; simpl in *; subst; [| reflexivity].
  specialize (Hk a s). destruct (k a s); exact Hk.
Qed.

Lemma reads_only_try_except {A} (m : M A) (h : exn -> M A) :
  reads_only m -> (forall e, reads_only (h e)) -> reads_only (try_except m h).
Proof.
  intros Hm Hh s. unfold try_except. specialize (Hm s).
  destruct (m s) as [[a | e] s' o]; simpl in *; subst; [reflexivity |].
  specialize (Hh e s). destruct (h e s); exact Hh.
Qed.

Lemma reads_only_when c m : reads_only m -> reads_only (when c m).
Proof. intros H. destruct c; [exact H | apply reads_only_ret]. Qed.

Lemma reads_only_for_each {A} (xs : list A) (body : A -> M unit) :
  (forall x, reads_only (body x)) -> reads_only (for_each xs body).
Proof.
  intros H. induction xs as [| x xs IH]; simpl.
  - apply reads_only_ret.
  - apply reads_only_bind; [apply H | intros _; exact IH].
Qed.

Create HintDb frame.
#[local] Hint Resolve reads_only_ret reads_only_lift reads_only_print
  reads_only_self_template reads_only_self_template_file : frame.

(** Walks through a method body made of reads, prints and lookups. *)
Ltac frame :=
  repeat first
    [ apply reads_only_bind; [| intro]
    | apply reads_only_try_except; [| intro]
    | apply reads_only_for_each; intro
    | apply reads_only_when
    | solve [auto with frame]
    | match goal with
      | |- reads_only (if ?c then _ else _) => destruct c
      | |- reads_only (match ?x with _ => _ end) => destruct x
      end ].

Lemma reads_only_no_section name : reads_only (no_section name).
Proof. unfold no_section. frame. Qed.

Lemma reads_only_check_parameter parameters entry :
  reads_only (check_parameter parameters entry).
Proof. unfold check_parameter. frame. Qed.

Lemma reads_only_check_parameters : reads_only check_parameters.
Proof.
  unfold check_parameters. pose proof reads_only_no_section.
  pose proof reads_only_check_parameter. frame.
Qed.

Lemma reads_only_check_resources : reads_only check_resources.
Proof.
  unfold check_resources, check_resource. pose proof reads_only_no_section. frame.
Qed.

Lemma reads_only_report_agent properties : reads_only (report_agent properties).
Proof. unfold report_agent. frame. Qed.

Lemma reads_only_check_bedrock_agent_config : reads_only check_bedrock_agent_config.
Proof.
  unfold check_bedrock_agent_config. pose proof reads_only_no_section.
  pose proof reads_only_report_agent. frame.
Qed.

Lemma reads_only_check_outputs : reads_only check_outputs.
Proof.
  unfold check_outputs, check_output. pose proof reads_only_no_section. frame.
Qed.

Lemma reads_only_summary_count name : reads_only (summary_count name).
Proof. unfold summary_count. frame. Qed.

Lemma reads_only_generate_summary : reads_only generate_summary.
Proof.
  unfold generate_summary. pose proof reads_only_summary_count. frame.
Qed.

Lemma reads_only_validate_template_syntax w : reads_only (validate_template_syntax w).
Proof. unfold validate_template_syntax. frame. Qed.

Lemma state_of_bind_reads_only {A B} (m : M A) (k : A -> M B) s :
  (forall a, reads_only (k a)) -> state_of (bind m k s) = state_of (m s).
Proof.
  intros Hk. unfold bind.
  destruct (m s) as [[a | e] s' o]; simpl; [| reflexivity].
  specialize (Hk a s'). destruct (k a s'); exact Hk.
Qed.

(** *** The guard at the head of every check *)

Lemma no_section_falsy name s :
  truthy (template s) = false -> returns (no_section name) s true [].
Proof.
  intros H. unfold returns, no_section, bind, self_template; simpl.
  rewrite H; reflexivity.
Qed.

Lemma no_section_dict name s d :
  template s = VDict d ->
  returns (no_section name) s
    (match dict_find name d with Some _ => false | None => true end) [].
Proof.
  intros H. unfold returns, no_section, bind, self_template; simpl.
  rewrite H. destruct d as [| [k v] d]; [reflexivity |].
  cbn [truthy negb contains lift result_of state_of printed].
  destruct (dict_find name ((k, v) :: d)); reflexivity.
Qed.

(** Rewrites the guard of a check away, given what the document is. *)
Ltac pass_guard H :=
  first
    [ rewrite (bind_ok _ _ _ _ _ _ (no_section_falsy _ _ H))
    | rewrite (bind_ok _ _ _ _ _ _ (no_section_dict _ _ _ H)) ].

Lemma get_dict d k default :
  get (VDict d) k default =
  Ok (match dict_find k d with Some x => x | None => default end).
Proof. cbn [get]. destruct (dict_find k d); reflexivity. Qed.

Lemma supports_in_has_len v : supports_in v = true -> has_len v = true.
Proof. destruct v; intros H; try discriminate H; reflexivity. Qed.

Lemma is_sized_supports_in v : is_sized v = true -> supports_in v = true.
Proof. destruct v; intros H; try discriminate H; reflexivity. Qed.

Lemma is_sized_has_len v : is_sized v = true -> has_len v = true.
Proof. destruct v; intros H; try discriminate H; reflexivity. Qed.

Lemma self_template_returns s : returns self_template s (template s) [].
Proof. reflexivity. Qed.

Lemma bind_returns_nothing {A B} (m : M A) (k : A -> M B) s a :
  returns m s a [] -> bind m k s = k a s.
Proof.
  intros H. rewrite (bind_ok _ _ _ _ _ _ H). symmetry. apply outcome_eta.
Qed.

Lemma bind_lift_ok {A B} (a : A) (k : A -> M B) s :
  bind (lift (Ok a)) k s = k a s.
Proof. apply bind_returns_nothing. reflexivity. Qed.

Lemma bind_self_template {B} (k : value -> M B) s :
  bind self_template k s = k (template s) s.
Proof. apply bind_returns_nothing. reflexivity. Qed.

Lemma bind_no_section_dict {B} name (k : bool -> M B) s d :
  template s = VDict d ->
  bind (no_section name) k s =
  k (match dict_find name d with Some _ => false | None => true end) s.
Proof. intros H. apply bind_returns_nothing, no_section_dict, H. Qed.

(** *** check_parameters *)

Lemma check_parameters_falsy s :
  truthy (template s) = false ->
  returns check_parameters s false [no_parameters_line].
Proof. intros H. unfold returns, check_parameters. pass_guard H. reflexivity. Qed.

Lemma check_parameters_absent s d :
  template s = VDict d -> dict_find (lit "Parameters") d = None ->
  returns check_parameters s false [no_parameters_line].
Proof.
  intros H Hd. unfold returns, check_parameters. pass_guard H. rewrite Hd. reflexivity.
Qed.

Lemma check_parameters_present s d v :
  template s = VDict d -> dict_find (lit "Parameters") d = Some v ->
  check_parameters s =
  (print [T nl; T "🔍 Checking Parameters:"] ;;
   for_each required_checks (check_parameter v) ;;
   ret true) s.
Proof.
  intros H Hd. unfold check_parameters.
  rewrite (bind_no_section_dict _ _ _ _ H), Hd, bind_self_template, H.
  cbn [subscript]. rewrite Hd, bind_lift_ok. reflexivity.
Qed.

(** Runs a method body on symbolic lookups, splitting on each lookup. *)
Ltac run_body :=
  unfold returns, bind, lift, print, when, ret, self_template;
  repeat (cbn -[lit];
    match goal with
    | |- context [match dict_find ?k ?d with _ => _ end] =>
        destruct (dict_find k d) eqn:?
    | |- context [match exp_AllowedValues ?e with _ => _ end] =>
        destruct (exp_AllowedValues e) eqn:?
    | |- context [eq_str ?v ?t] => destruct (eq_str v t) eqn:?
    | |- context [ne_str_list ?v ?t] => destruct (ne_str_list v t) eqn:?
    | |- context [if ?c then _ else _] =>
        lazymatch c with
        | context [match _ with _ => _ end] => fail
        | _ => destruct c eqn:?
        end
    | |- context [len ?v] => is_var v; destruct v
    | |- context [contains _ ?v] => is_var v; destruct v
    | |- context [subscript ?v _] => is_var v; destruct v
    | |- context [get ?v _ _] => is_var v; destruct v
    | |- context [match ?x with _ => _ end] => is_var x; destruct x
    end).

Lemma check_parameter_returns ps entry s :
  entry_is is_dict (fst entry) ps = true ->
  exists o, returns (check_parameter (VDict ps) entry) s tt o.
Proof.
  destruct entry as [name expected]. unfold entry_is, check_parameter, fst.
  intros H. cbn [contains subscript].
  destruct (dict_find name ps) as [[| | | | | | pm | | | | |] |];
    try discriminate H; run_body; cbn -[lit]; eexists; reflexivity.
Qed.

Lemma for_each_returns {A} (xs : list A) (body : A -> M unit) s :
  (forall x, In x xs -> exists o, returns (body x) s tt o) ->
  exists o, returns (for_each xs body) s tt o.
Proof.
  induction xs as [| x xs IH]; intros H; simpl.
  - exists []. reflexivity.
  - destruct (H x (or_introl eq_refl)) as [o Ho].
    destruct IH as [o' Ho']; [intros y Hy; apply H; right; exact Hy |].
    exists (o ++ o'). eapply bind_returns; eassumption.
Qed.

Lemma check_parameters_returns s d ps :
  template s = VDict d -> dict_find (lit "Parameters") d = Some (VDict ps) ->
  parameters_shape ps = true ->
  exists o, returns check_parameters s true o.
Proof.
  intros H Hd Hs. unfold returns. rewrite (check_parameters_present s d _ H Hd).
  destruct (for_each_returns required_checks (check_parameter (VDict ps)) s) as [o Ho].
  - intros x Hx. apply check_parameter_returns.
    unfold parameters_shape in Hs. rewrite forallb_forall in Hs. apply Hs, Hx.
  - eexists. eapply bind_returns; [reflexivity |].
    eapply bind_returns; [exact Ho | reflexivity].
Qed.

Lemma print_then {A} l (k : M A) s :
  bind (print l) (fun _ => k) s =
  mkOutcome (result_of (k s)) (state_of (k s)) (l :: printed (k s)).
Proof. unfold bind, print. destruct (k s); reflexivity. Qed.

Lemma then_true_not_false {A} (m : M A) s :
  result_of (bind m (fun _ => ret true) s) <> Ok false.
Proof.
  unfold bind. destruct (m s) as [[a | e] s' o]; simpl; discriminate.
Qed.

Lemma check_parameters_not_false s d v :
  template s = VDict d -> dict_find (lit "Parameters") d = Some v ->
  result_of (check_parameters s) <> Ok false.
Proof.
  intros H Hd. rewrite (check_parameters_present s d v H Hd), print_then.
  apply then_true_not_false.
Qed.

(** *** check_resources *)

Lemma check_resources_falsy s :
  truthy (template s) = false ->
  returns check_resources s false [no_resources_line].
Proof. intros H. unfold returns, check_resources. pass_guard H. reflexivity. Qed.

Lemma check_resources_absent s d :
  template s = VDict d -> dict_find (lit "Resources") d = None ->
  returns check_resources s false [no_resources_line].
Proof.
  intros H Hd. unfold returns, check_resources. pass_guard H. rewrite Hd. reflexivity.
Qed.

Lemma check_resources_present s d v :
  template s = VDict d -> dict_find (lit "Resources") d = Some v ->
  check_resources s =
  (print [T nl; T "🔍 Checking Resources:"] ;;
   for_each expected_resources (check_resource v) ;;
   ret true) s.
Proof.
  intros H Hd. unfold check_resources.
  rewrite (bind_no_section_dict _ _ _ _ H), Hd, bind_self_template, H.
  cbn [subscript]. rewrite Hd, bind_lift_ok. reflexivity.
Qed.

Lemma check_resource_returns rs name s :
  entry_is is_dict name rs = true ->
  exists o, returns (check_resource (VDict rs) name) s tt o.
Proof.
  unfold entry_is, check_resource. intros H. cbn [contains subscript].
  destruct (dict_find name rs) as [[| | | | | | r | | | | |] |];
    try discriminate H; run_body; cbn -[lit]; eexists; reflexivity.
Qed.

Lemma check_resources_returns s d rs :
  template s = VDict d -> dict_find (lit "Resources") d = Some (VDict rs) ->
  resources_shape rs = true ->
  exists o, returns check_resources s true o.
Proof.
  intros H Hd Hs. unfold returns. rewrite (check_resources_present s d _ H Hd).
  destruct (for_each_returns expected_resources (check_resource (VDict rs)) s) as [o Ho].
  - intros x Hx. apply check_resource_returns.
    unfold resources_shape in Hs. rewrite forallb_forall in Hs. apply Hs, Hx.
  - eexists. eapply bind_returns; [reflexivity |].
    eapply bind_returns; [exact Ho | reflexivity].
Qed.

Lemma check_resources_not_false s d v :
  template s = VDict d -> dict_find (lit "Resources") d = Some v ->
  result_of (check_resources s) <> Ok false.
Proof.
  intros H Hd. rewrite (check_resources_present s d v H Hd), print_then.
  apply then_true_not_false.
Qed.

(** *** check_outputs *)

Lemma check_outputs_falsy s :
  truthy (template s) = false ->
  returns check_outputs s false [no_outputs_line].
Proof. intros H. unfold returns, check_outputs. pass_guard H. reflexivity. Qed.

Lemma check_outputs_absent s d :
  template s = VDict d -> dict_find (lit "Outputs") d = None ->
  returns check_outputs s false [no_outputs_line].
Proof.
  intros H Hd. unfold returns, check_outputs. pass_guard H. rewrite Hd. reflexivity.
Qed.

Lemma check_outputs_present s d v :
  template s = VDict d -> dict_find (lit "Outputs") d = Some v ->
  check_outputs s =
  (print [T nl; T "🔍 Checking Outputs:"] ;;
   for_each expected_outputs (check_output v) ;;
   ret true) s.
Proof.
  intros H Hd. unfold check_outputs.
  rewrite (bind_no_section_dict _ _ _ _ H), Hd, bind_self_template, H.
  cbn [subscript]. rewrite Hd, bind_lift_ok. reflexivity.
Qed.

Lemma check_output_returns v name s :
  supports_in v = true -> exists o, returns (check_output v name) s tt o.
Proof.
  unfold check_output. intros H.
  destruct v; try discriminate H; run_body; cbn -[lit]; eexists; reflexivity.
Qed.

Lemma check_output_raises v name s :
  supports_in v = false -> exists e, result_of (check_output v name s) = Raise e.
Proof.
  unfold check_output. intros H.
  destruct v; try discriminate H; cbn -[lit]; eexists; reflexivity.
Qed.

Lemma check_outputs_returns s d v :
  template s = VDict d -> dict_find (lit "Outputs") d = Some v ->
  supports_in v = true ->
  exists o, returns check_outputs s true o.
Proof.
  intros H Hd Hs. unfold returns. rewrite (check_outputs_present s d _ H Hd).
  destruct (for_each_returns expected_outputs (check_output v) s) as [o Ho].
  - intros x _. apply check_output_returns, Hs.
  - eexists. eapply bind_returns; [reflexivity |].
    eapply bind_returns; [exact Ho | reflexivity].
Qed.

Lemma check_outputs_raises s d v :
  template s = VDict d -> dict_find (lit "Outputs") d = Some v ->
  supports_in v = false ->
  exists e, result_of (check_outputs s) = Raise e.
Proof.
  intros H Hd Hs. rewrite (check_outputs_present s d _ H Hd), print_then.
  cbn [result_of]. unfold expected_outputs. cbn [for_each].
  destruct (check_output_raises v (lit "AgentId") s Hs) as [e He].
  exists e. apply result_of_bind_raise, result_of_bind_raise, He.
Qed.

(** *** check_bedrock_agent_config *)

Lemma check_bedrock_agent_config_falsy s :
  truthy (template s) = false ->
  returns check_bedrock_agent_config s false [].
Proof.
  intros H. unfold returns, check_bedrock_agent_config. pass_guard H. reflexivity.
Qed.

Lemma check_bedrock_agent_config_absent s d :
  template s = VDict d -> dict_find (lit "Resources") d = None ->
  returns check_bedrock_agent_config s false [].
Proof.
  intros H Hd. unfold returns, check_bedrock_agent_config.
  rewrite (bind_no_section_dict _ _ _ _ H), Hd. reflexivity.
Qed.


Lemma check_bedrock_agent_config_present s d rs a :
  template s = VDict d -> dict_find (lit "Resources") d = Some (VDict rs) ->
  dict_find (lit "BedrockAgent") rs = Some (VDict a) ->
  check_bedrock_agent_config s = report_agent (property_bag a) s.
Proof.
  intros H Hd Ha. unfold check_bedrock_agent_config.
  rewrite (bind_no_section_dict _ _ _ _ H), Hd, bind_self_template, H.
  cbn [subscript]. rewrite Hd, bind_lift_ok. cbn [contains].
  rewrite Ha, bind_lift_ok. cbn [negb subscript]. rewrite Ha, bind_lift_ok.
  unfold property_bag. cbn [get].
  destruct (dict_find (lit "Properties") a); apply bind_lift_ok.
Qed.

Lemma report_agent_returns p s :
  properties_shape p = true ->
  exists o, returns (report_agent (VDict p)) s true o.
Proof.
  unfold properties_shape, entry_is, override_shape, report_agent.
  intros H. apply andb_prop in H. destruct H as [Hi Ho].
  revert Hi Ho. unfold entry_is. cbn [contains subscript get].
  run_body; cbn -[lit]; intros; try discriminate; eexists; reflexivity.
Qed.

Lemma check_bedrock_agent_config_returns s d rs agent :
  template s = VDict d -> dict_find (lit "Resources") d = Some (VDict rs) ->
  dict_find (lit "BedrockAgent") rs = Some agent ->
  agent_shape agent = true ->
  exists o, returns check_bedrock_agent_config s true o.
Proof.
  intros H Hd Ha Hs. destruct agent as [| | | | | | a | | | | |]; try discriminate Hs.
  unfold returns. rewrite (check_bedrock_agent_config_present s d rs a H Hd Ha).
  unfold agent_shape in Hs. destruct (property_bag a); try discriminate Hs.
  apply report_agent_returns, Hs.
Qed.

(** *** generate_summary *)

Lemma generate_summary_falsy s :
  truthy (template s) = false -> returns generate_summary s tt summary_head.
Proof.
  intros H. unfold returns, generate_summary. rewrite !print_then.
  rewrite bind_self_template, H. reflexivity.
Qed.

Lemma summary_count_returns s d name :
  template s = VDict d -> entry_is has_len (lit name) d = true ->
  exists o, returns (summary_count name) s tt o.
Proof.
  intros H Hs. unfold returns, summary_count, entry_is in *.
  rewrite bind_self_template, H. cbn [contains].
  destruct (dict_find (lit name) d) as [v |] eqn:Hd; rewrite bind_lift_ok.
  - cbn [when]. rewrite bind_self_template, H. cbn [subscript]. rewrite Hd, bind_lift_ok.
    destruct v; try discriminate Hs; cbn [len]; rewrite bind_lift_ok;
      eexists; reflexivity.
  - eexists; reflexivity.
Qed.

Lemma generate_summary_returns s d :
  template s = VDict d ->
  entry_is has_len (lit "Parameters") d = true ->
  entry_is has_len (lit "Resources") d = true ->
  entry_is has_len (lit "Outputs") d = true ->
  exists o, returns generate_summary s tt o.
Proof.
  intros H Hp Hr Ho.
  destruct (truthy (template s)) eqn:Ht;
    [| eexists; apply generate_summary_falsy, Ht].
  destruct (summary_count_returns s d _ H Hp) as [o1 H1].
  destruct (summary_count_returns s d _ H Hr) as [o2 H2].
  destruct (summary_count_returns s d _ H Ho) as [o3 H3].
  unfold generate_summary. eexists.
  eapply bind_returns; [reflexivity |].
  eapply bind_returns; [reflexivity |].
  eapply bind_returns; [apply self_template_returns |].
  rewrite Ht. cbn [when]. rewrite H, !get_dict.
  eapply bind_returns; [reflexivity |].
  eapply bind_returns; [reflexivity |].
  eapply bind_returns; [reflexivity |].
  eapply bind_returns; [reflexivity |].
  eapply bind_returns; [exact H1 |].
  eapply bind_returns; [exact H2 | exact H3].
Qed.

(** *** load_template *)

Lemma load_template_ok w s text doc :
  read_text w (template_file s) = Ok text ->
  yaml_safe_load w text = Ok doc ->
  load_template w s = mkOutcome (Ok true) (with_template s doc) [loaded_line s].
Proof.
  intros Hr Hy. unfold load_template, try_except, bind, lift, self_template_file.
  cbn. rewrite Hr. cbn. rewrite Hy. reflexivity.
Qed.

Lemma load_template_never_raises w : never_raises (load_template w).
Proof.
  intros s. unfold load_template, try_except, bind, lift, self_template_file.
  cbn. destruct (read_text w (template_file s)) as [text | e]; cbn;
    [destruct (yaml_safe_load w text) as [doc | e]; cbn |]; eexists; reflexivity.
Qed.

Lemma load_template_state w s :
  state_of (load_template w s) = s \/
  exists doc, load_template w s =
              mkOutcome (Ok true) (with_template s doc) [loaded_line s].
Proof.
  destruct (read_text w (template_file s)) as [text | e] eqn:Hr;
    [destruct (yaml_safe_load w text) as [doc | e] eqn:Hy |].
  - right. exists doc. eapply load_template_ok; eassumption.
  - left. unfold load_template, try_except, bind, lift, self_template_file.
    cbn. rewrite Hr. cbn. rewrite Hy. reflexivity.
  - left. unfold load_template, try_except, bind, lift, self_template_file.
    cbn. rewrite Hr. reflexivity.
Qed.

(** *** validate_template_syntax *)

Lemma validate_template_syntax_never_raises w :
  never_raises (validate_template_syntax w).
Proof.
  intros s. unfold validate_template_syntax, try_except, bind, lift, self_template_file.
  cbn. destruct (boto3_client w) as [[] | e]; cbn;
    [destruct (read_text w (template_file s)) as [text | e]; cbn;
     [destruct (validate_template w text) as [[] | e]; cbn |] |];
    eexists; reflexivity.
Qed.

(** *** The loop of run_all_checks *)

Lemma run_checks_cons name (check : M bool) cs passed :
  run_checks ((name, check) :: cs) passed =
  (passed' <-
     try_except
       (ok <- check ;; ret (if ok : bool then (passed + 1)%Z else passed))
       (fun e => print [T "❌ Error in "; T name; T ": "; E e] ;; ret passed) ;;
   run_checks cs passed').
Proof. reflexivity. Qed.

Lemma run_checks_step name (check : M bool) cs passed s b s' o :
  check s = mkOutcome (Ok b) s' o ->
  run_checks ((name, check) :: cs) passed s =
  let r := run_checks cs (if b then passed + 1 else passed)%Z s' in
  mkOutcome (result_of r) (state_of r) (o ++ printed r).
Proof.
  intros H. cbn [run_checks]. unfold try_except, bind. rewrite H.
  cbn. rewrite app_nil_r.
  destruct (run_checks cs (if b then (passed + 1)%Z else passed) s'); reflexivity.
Qed.

Lemma run_checks_step_raise name (check : M bool) cs passed s e s' o :
  check s = mkOutcome (Raise e) s' o ->
  run_checks ((name, check) :: cs) passed s =
  let r := run_checks cs passed s' in
  mkOutcome (result_of r) (state_of r)
    ((o ++ [step_error_line name e]) ++ printed r).
Proof.
  intros H. cbn [run_checks]. unfold try_except, bind. rewrite H.
  cbn. destruct (run_checks cs passed s'); reflexivity.
Qed.

Lemma run_checks_never_raises cs passed : never_raises (run_checks cs passed).
Proof.
  revert passed. induction cs as [| [name check] cs IH]; intros passed s.
  - eexists; reflexivity.
  - destruct (check s) as [[b | e] s' o] eqn:H.
    + rewrite (run_checks_step name check cs passed s b s' o H). apply IH.
    + rewrite (run_checks_step_raise name check cs passed s e s' o H). apply IH.
Qed.

Lemma reads_only_run_checks cs passed :
  (forall name check, In (name, check) cs -> reads_only check) ->
  reads_only (run_checks cs passed).
Proof.
  revert passed. induction cs as [| [name check] cs IH]; intros passed H; cbn [run_checks].
  - apply reads_only_ret.
  - apply reads_only_bind.
    + apply reads_only_try_except.
      * apply reads_only_bind; [apply (H name check); left; reflexivity |].
        intro; apply reads_only_ret.
      * intro; frame.
    + intro. apply IH. intros n c Hin. apply (H n c). right. exact Hin.
Qed.

Lemma reads_only_later_checks name check :
  In (name, check) later_checks -> reads_only check.
Proof.
  unfold later_checks. cbn [In]. intros H.
  repeat (destruct H as [H | H]; [inversion H; subst; clear H |]);
    try contradiction.
  - apply reads_only_check_parameters.
  - apply reads_only_check_resources.
  - apply reads_only_check_bedrock_agent_config.
  - apply reads_only_check_outputs.
Qed.

Lemma run_all_checks_outcome w s passed s1 o og :
  run_checks (checks w) 0 s = mkOutcome (Ok passed) s1 o ->
  returns generate_summary s1 tt og ->
  run_all_checks w s =
  mkOutcome (Ok (Z.eqb passed 5)) s1
    (run_head ++ o ++ og ++ [tally_line passed; verdict_line passed]).
Proof.
  intros Hc Hg. unfold run_all_checks. rewrite !print_then.
  rewrite (bind_ok _ _ _ _ _ _ Hc), (bind_ok _ _ _ _ _ _ Hg).
  rewrite print_then. cbn [result_of state_of printed].
  change (Z.of_nat (List.length (checks w))) with 5%Z.
  unfold verdict_line. destruct (Z.eqb passed 5); reflexivity.
Qed.

Lemma run_checks_all_return w s b0 s1 o0 b1 o1 b2 o2 b3 o3 b4 o4 :
  load_template w s = mkOutcome (Ok b0) s1 o0 ->
  returns check_parameters s1 b1 o1 ->
  returns check_resources s1 b2 o2 ->
  returns check_bedrock_agent_config s1 b3 o3 ->
  returns check_outputs s1 b4 o4 ->
  run_checks (checks w) 0 s =
  mkOutcome (Ok (tally [b0; b1; b2; b3; b4])) s1 (o0 ++ o1 ++ o2 ++ o3 ++ o4).
Proof.
  intros H0 H1 H2 H3 H4. unfold checks.
  rewrite (run_checks_step _ _ _ _ _ _ _ _ H0). cbv zeta.
  rewrite (run_checks_step _ _ _ _ _ _ _ _ H1). cbv zeta.
  rewrite (run_checks_step _ _ _ _ _ _ _ _ H2). cbv zeta.
  rewrite (run_checks_step _ _ _ _ _ _ _ _ H3). cbv zeta.
  rewrite (run_checks_step _ _ _ _ _ _ _ _ H4). cbv zeta.
  cbn [run_checks ret result_of state_of printed]. rewrite app_nil_r.
  reflexivity.
Qed.

Lemma state_of_run_all_checks w s :
  state_of (run_all_checks w s) = state_of (load_template w s).
Proof.
  unfold run_all_checks. rewrite !print_then. cbn [state_of].
  rewrite state_of_bind_reads_only.
  2:{ intro passed. pose proof reads_only_generate_summary. frame. }
  unfold checks. rewrite run_checks_cons.
  rewrite state_of_bind_reads_only.
  2:{ intro passed. apply reads_only_run_checks. apply reads_only_later_checks. }
  unfold try_except, bind.
  destruct (load_template w s) as [[b | e] s' o]; reflexivity.
Qed.

Lemma load_template_true w s :
  result_of (load_template w s) = Ok true ->
  exists text doc,
    read_text w (template_file s) = Ok text /\ yaml_safe_load w text = Ok doc.
Proof.
  unfold load_template, try_except, bind, lift, self_template_file. cbn.
  destruct (read_text w (template_file s)) as [text | e]; cbn;
    [destruct (yaml_safe_load w text) as [doc | e] eqn:Hy; cbn |];
    intros H; try discriminate H.
  exists text, doc. split; [reflexivity | exact Hy].
Qed.

(** ** The claims *)

Lemma well_shaped_inv doc :
  well_shaped doc = true ->
  exists d ps rs os agent,
    doc = VDict d /\
    dict_find (lit "Parameters") d = Some (VDict ps) /\
    dict_find (lit "Resources") d = Some (VDict rs) /\
    dict_find (lit "Outputs") d = Some (VDict os) /\
    parameters_shape ps = true /\ resources_shape rs = true /\
    dict_find (lit "BedrockAgent") rs = Some agent /\ agent_shape agent = true.
Proof.
  unfold well_shaped. destruct doc as [| | | | | | d | | | | |]; try discriminate.
  destruct (dict_find (lit "Parameters") d) as [[| | | | | | ps | | | | |] |] eqn:Hdp;
    try discriminate.
  destruct (dict_find (lit "Resources") d) as [[| | | | | | rs | | | | |] |] eqn:Hdr;
    try discriminate.
  destruct (dict_find (lit "Outputs") d) as [[| | | | | | os | | | | |] |] eqn:Hdo;
    try discriminate.
  destruct (dict_find (lit "BedrockAgent") rs) as [agent |] eqn:Ha;
    intros H; apply andb_prop in H; destruct H as [H Hs]; try discriminate Hs.
  apply andb_prop in H. destruct H as [Hp Hr].
  exists d, ps, rs, os, agent. repeat split; assumption.
Qed.

Lemma run_all_checks_passes w s text doc :
  read_text w (template_file s) = Ok text ->
  yaml_safe_load w text = Ok doc ->
  well_shaped doc = true ->
  exists o, run_all_checks w s =
            mkOutcome (Ok true) (with_template s doc)
              (run_head ++ o ++ [tally_line 5; verdict_line 5]).
Proof.
  intros Hr Hy Hw.
  destruct (well_shaped_inv doc Hw)
    as (d & ps & rs & os & agent & -> & Hp & Hrs & Ho & Sp & Sr & Ha & Sa).
  pose proof (load_template_ok w s text _ Hr Hy) as H0.
  set (s1 := with_template s (VDict d)) in *.
  assert (Ht : template s1 = VDict d) by reflexivity.
  destruct (check_parameters_returns s1 d ps Ht Hp Sp) as [o1 H1].
  destruct (check_resources_returns s1 d rs Ht Hrs Sr) as [o2 H2].
  destruct (check_bedrock_agent_config_returns s1 d rs agent Ht Hrs Ha Sa) as [o3 H3].
  destruct (check_outputs_returns s1 d (VDict os) Ht Ho eq_refl) as [o4 H4].
  destruct (generate_summary_returns s1 d Ht) as [og Hg];
    try (unfold entry_is; rewrite ?Hp, ?Hrs, ?Ho; reflexivity).
  pose proof (run_checks_all_return w s _ _ _ _ _ _ _ _ _ _ _ H0 H1 H2 H3 H4) as Hc.
  rewrite (run_all_checks_outcome w s _ _ _ _ Hc Hg).
  change (tally [true; true; true; true; true]) with 5%Z.
  exists (([loaded_line s] ++ o1 ++ o2 ++ o3 ++ o4) ++ og).
  rewrite <- (app_assoc _ og). reflexivity.
Qed.

Lemma generate_summary_lacking s :
  lacks_sections (template s) = true ->
  exists o, returns generate_summary s tt o.
Proof.
  unfold lacks_sections. intros H.
  destruct (truthy (template s)) eqn:Ht;
    [| eexists; apply generate_summary_falsy, Ht].
  cbn [negb orb] in H.
  destruct (template s) as [| | | | | | d | | | | |] eqn:Hd; try discriminate H.
  apply (generate_summary_returns s d Hd); unfold entry_is;
    destruct (dict_find (lit "Parameters") d); try discriminate H;
    destruct (dict_find (lit "Resources") d); try discriminate H;
    destruct (dict_find (lit "Outputs") d); try discriminate H; reflexivity.
Qed.

Lemma checks_fail_lacking s :
  lacks_sections (template s) = true ->
  returns check_parameters s false [no_parameters_line] /\
  returns check_resources s false [no_resources_line] /\
  returns check_bedrock_agent_config s false [] /\
  returns check_outputs s false [no_outputs_line].
Proof.
  unfold lacks_sections. intros H.
  destruct (truthy (template s)) eqn:Ht.
  - cbn [negb orb] in H.
    destruct (template s) as [| | | | | | d | | | | |] eqn:Hd; try discriminate H.
    destruct (dict_find (lit "Parameters") d) eqn:Hp; try discriminate H.
    destruct (dict_find (lit "Resources") d) eqn:Hr; try discriminate H.
    destruct (dict_find (lit "Outputs") d) eqn:Ho; try discriminate H.
    repeat split.
    + apply (check_parameters_absent s d Hd Hp).
    + apply (check_resources_absent s d Hd Hr).
    + apply (check_bedrock_agent_config_absent s d Hd Hr).
    + apply (check_outputs_absent s d Hd Ho).
  - repeat split.
    + apply check_parameters_falsy, Ht.
    + apply check_resources_falsy, Ht.
    + apply check_bedrock_agent_config_falsy, Ht.
    + apply check_outputs_falsy, Ht.
Qed.

Lemma run_all_checks_only_load w s text doc :
  read_text w (template_file s) = Ok text ->
  yaml_safe_load w text = Ok doc ->
  lacks_sections doc = true ->
  exists o, run_all_checks w s =
            mkOutcome (Ok false) (with_template s doc)
              (run_head ++ o ++ [tally_line 1; verdict_line 1]).
Proof.
  intros Hr Hy Hl.
  pose proof (load_template_ok w s text _ Hr Hy) as H0.
  set (s1 := with_template s doc) in *.
  assert (Hl1 : lacks_sections (template s1) = true) by exact Hl.
  destruct (checks_fail_lacking s1 Hl1) as (H1 & H2 & H3 & H4).
  destruct (generate_summary_lacking s1 Hl1) as [og Hg].
  pose proof (run_checks_all_return w s _ _ _ _ _ _ _ _ _ _ _ H0 H1 H2 H3 H4) as Hc.
  rewrite (run_all_checks_outcome w s _ _ _ _ Hc Hg).
  change (tally [true; false; false; false; false]) with 1%Z.
  exists (([loaded_line s] ++ [no_parameters_line] ++ [no_resources_line] ++
           [] ++ [no_outputs_line]) ++ og).
  rewrite <- (app_assoc _ og). reflexivity.
Qed.

Lemma In_tail {A} (x y : A) (l1 l2 : list A) : In x (l1 ++ l2 ++ [x; y]).
Proof. apply in_or_app; right. apply in_or_app; right. left; reflexivity. Qed.

(** C1, as amended.  When the template file parses to a well-shaped
    document (a mapping whose Parameters, Resources and Outputs sections are
    mappings, whose BedrockAgent resource exists, and whose nested values
    have the types the lookups need), [run_all_checks] returns [True] and
    prints the tally 5/5.  When it parses to a mapping without the three
    sections, or to a falsy document, [run_all_checks] returns [False] and
    prints the tally 1/5. *)
Theorem run_all_checks_tally w s text doc :
  read_text w (template_file s) = Ok text ->
  yaml_safe_load w text = Ok doc ->
  (well_shaped doc = true ->
   result_of (run_all_checks w s) = Ok true /\
   In (tally_line 5) (printed (run_all_checks w s))) /\
  (lacks_sections doc = true ->
   result_of (run_all_checks w s) = Ok false /\
   In (tally_line 1) (printed (run_all_checks w s))).
Proof.
  intros Hr Hy. split; intros H.
  - destruct (run_all_checks_passes w s text doc Hr Hy H) as [o ->].
    split; [reflexivity | apply In_tail].
  - destruct (run_all_checks_only_load w s text doc Hr Hy H) as [o ->].
    split; [reflexivity | apply In_tail].
Qed.

Lemma run_all_checks_tally_witness :
  (result_of (run_all_checks (world_of example_document (Ok tt)) (init default_path))
   = Ok true /\
   In (tally_line 5)
      (printed (run_all_checks (world_of example_document (Ok tt)) (init default_path))))
  /\
  (result_of (run_all_checks (world_of (VDict []) (Ok tt)) (init default_path))
   = Ok false /\
   In (tally_line 1)
      (printed (run_all_checks (world_of (VDict []) (Ok tt)) (init default_path)))).
Proof.
  split.
  - refine (proj1 (run_all_checks_tally (world_of example_document (Ok tt))
                     (init default_path) "" example_document eq_refl eq_refl) _).
    vm_compute. reflexivity.
  - refine (proj2 (run_all_checks_tally (world_of (VDict []) (Ok tt))
                     (init default_path) "" (VDict []) eq_refl eq_refl) _).
    vm_compute. reflexivity.
Defined.

(** C1 fails as stated.  In [numeric_instruction_document] every expected
    section, resource and output is present, yet the run reports 4/5 and
    returns [False]: [len] of the numeric instruction raises inside
    [check_bedrock_agent_config].  And [sequence_document] parses and has
    none of the three sections, yet the run raises instead of reporting
    1/5. *)
Lemma run_all_checks_tally_counterexample :
  all_expected_present numeric_instruction_document = true /\
  result_of (run_all_checks (world_of numeric_instruction_document (Ok tt))
               (init default_path)) = Ok false /\
  In (tally_line 4)
     (printed (run_all_checks (world_of numeric_instruction_document (Ok tt))
                 (init default_path))) /\
  In (step_error_line "check_bedrock_agent_config"
        (TypeError "object of type 'int' has no len()"))
     (printed (run_all_checks (world_of numeric_instruction_document (Ok tt))
                 (init default_path))) /\
  result_of (run_all_checks (world_of sequence_document (Ok tt)) (init default_path))
  = Raise (AttributeError "'list' object has no attribute 'get'").
Proof.
  repeat split; vm_compute; auto 40.
Qed.

(** C2, as amended.  On a document that is a mapping, [check_parameters]
    returns [False] exactly when the [Parameters] key is absent (and then
    prints that no such section was found); it returns [True] whenever
    [Parameters] is a mapping in which every required parameter that is
    declared is itself a mapping, whatever types and allowed values those
    parameters declare; on an empty [Parameters] mapping it returns [True]
    and reports each of AgentName, FoundationModel and Environment missing. *)
Theorem check_parameters_on_mappings s d :
  template s = VDict d ->
  (result_of (check_parameters s) = Ok false <->
   dict_find (lit "Parameters") d = None) /\
  (dict_find (lit "Parameters") d = None ->
   printed (check_parameters s) = [no_parameters_line]) /\
  (forall ps,
     dict_find (lit "Parameters") d = Some (VDict ps) ->
     parameters_shape ps = true ->
     result_of (check_parameters s) = Ok true) /\
  (dict_find (lit "Parameters") d = Some (VDict []) ->
   result_of (check_parameters s) = Ok true /\
   In (missing_parameter_line "AgentName") (printed (check_parameters s)) /\
   In (missing_parameter_line "FoundationModel") (printed (check_parameters s)) /\
   In (missing_parameter_line "Environment") (printed (check_parameters s))).
Proof.
  intros H. repeat split.
  - intros Hf. destruct (dict_find (lit "Parameters") d) as [v |] eqn:Hd;
      [| reflexivity].
    exfalso. exact (check_parameters_not_false s d v H Hd Hf).
  - intros Hd. rewrite (check_parameters_absent s d H Hd). reflexivity.
  - intros Hd. rewrite (check_parameters_absent s d H Hd). reflexivity.
  - intros ps Hd Hs. destruct (check_parameters_returns s d ps H Hd Hs) as [o ->].
    reflexivity.
  - rewrite (check_parameters_present s d _ H H0). reflexivity.
  - rewrite (check_parameters_present s d _ H H0). cbn. auto.
  - rewrite (check_parameters_present s d _ H H0). cbn. auto.
  - rewrite (check_parameters_present s d _ H H0). cbn. auto.
Qed.

Lemma check_parameters_on_mappings_witness :
  result_of (check_parameters (loaded mismatched_parameters_document)) = Ok true /\
  result_of (check_parameters (loaded empty_parameters_document)) = Ok true /\
  (result_of (check_parameters (loaded no_agent_document)) = Ok false <->
   dict_find (lit "Parameters")
     [ (Str "Resources",
         VDict [ (Str "BedrockAgentRole", VDict [(Str "Type", Str "X")]) ]) ] = None).
Proof.
  split; [| split].
  - destruct (check_parameters_on_mappings (loaded mismatched_parameters_document) _ eq_refl)
      as (_ & _ & H & _).
    eapply H; reflexivity.
  - destruct (check_parameters_on_mappings (loaded empty_parameters_document) _ eq_refl)
      as (_ & _ & _ & H).
    apply H. reflexivity.
  - exact (proj1 (check_parameters_on_mappings (loaded no_agent_document) _ eq_refl)).
Defined.

(** C2 fails as stated.  In [scalar_parameter_document] the [Parameters]
    mapping exists, but [check_parameters] does not return success: the
    declared parameter is a string, and [param.get] raises. *)
Lemma check_parameters_counterexample :
  dict_find (lit "Parameters")
    [ (Str "Parameters", VDict [ (Str "AgentName", Str "x") ]) ]
  = Some (VDict [ (Str "AgentName", Str "x") ]) /\
  check_parameters (loaded scalar_parameter_document) =
  mkOutcome (Raise (AttributeError "'str' object has no attribute 'get'"))
    (loaded scalar_parameter_document)
    [ [T nl; T "🔍 Checking Parameters:"] ].
Proof. split; reflexivity. Qed.




(** Settles a goal [In l (printed ...)] over an explicit report. *)
Ltac find_line := cbn -[lit]; auto 20.

(** Settles a goal from [H : In l (printed ...)] over an explicit report:
    each printed line either differs from [l] or fixes its number. *)
Ltac each_line H :=
  cbn -[lit] in H;
  repeat (destruct H as [H | H];
          [first [ discriminate H
                 | injection H; intros; subst; first [reflexivity | lia] ] |]);
  contradiction.

Lemma report_agent_instruction_missing p s :
  dict_find (lit "Instruction") p = None ->
  In missing_instruction_line (printed (report_agent (VDict p) s)) /\
  forall n, ~ In (instruction_line n) (printed (report_agent (VDict p) s)).
Proof.
  intros Hi. unfold report_agent, missing_instruction_line, instruction_line.
  cbn [contains subscript get]. rewrite Hi.
  run_body; (split; [find_line | intros n Hin; each_line Hin]).
Qed.

Lemma report_agent_instruction_length p i s :
  dict_find (lit "Instruction") p = Some (VStr i) ->
  In (instruction_line (Z.of_nat (List.length i)))
     (printed (report_agent (VDict p) s)) /\
  (forall n, In (instruction_line n) (printed (report_agent (VDict p) s)) ->
             n = Z.of_nat (List.length i)) /\
  ~ In missing_instruction_line (printed (report_agent (VDict p) s)).
Proof.
  intros Hi. unfold report_agent, missing_instruction_line, instruction_line.
  cbn [contains subscript get]. rewrite Hi.
  run_body;
    (split; [find_line | split; [intros n Hin; each_line Hin | intros Hin; each_line Hin]]).
Qed.

(** C6, as amended.  On a document that is a mapping whose [Resources]
    section is a mapping whose [BedrockAgent] entry is a mapping, with a
    mapping [p] as its property bag ([Properties], or the empty mapping when
    the key is absent): when [p] has no [Instruction], the report contains
    the line that labels the instruction missing and no line giving a
    length; when the instruction is a string of [L] characters, the report
    contains the line giving [L] characters, no line giving another length,
    and not the missing-instruction line. *)
Theorem agent_instruction_report s d rs a p :
  template s = VDict d ->
  dict_find (lit "Resources") d = Some (VDict rs) ->
  dict_find (lit "BedrockAgent") rs = Some (VDict a) ->
  property_bag a = VDict p ->
  (dict_find (lit "Instruction") p = None ->
   In missing_instruction_line (printed (check_bedrock_agent_config s)) /\
   forall n, ~ In (instruction_line n) (printed (check_bedrock_agent_config s))) /\
  (forall i,
     dict_find (lit "Instruction") p = Some (VStr i) ->
     In (instruction_line (Z.of_nat (List.length i)))
        (printed (check_bedrock_agent_config s)) /\
     (forall n, In (instruction_line n) (printed (check_bedrock_agent_config s)) ->
                n = Z.of_nat (List.length i)) /\
     ~ In missing_instruction_line (printed (check_bedrock_agent_config s))).
Proof.
  intros H Hd Ha Hp.
  rewrite (check_bedrock_agent_config_present s d rs a H Hd Ha), Hp.
  split.
  - apply report_agent_instruction_missing.
  - intros i. apply report_agent_instruction_length.
Qed.

Lemma agent_instruction_report_witness :
  In (instruction_line 5) (printed (check_bedrock_agent_config (loaded example_document))) /\
  In missing_instruction_line
     (printed (check_bedrock_agent_config (loaded (agent_document [])))).
Proof.
  split.
  - refine (proj1 (proj2 (agent_instruction_report (loaded example_document)
                            _ _ _ _ eq_refl eq_refl eq_refl eq_refl)
                     (lit "hello") eq_refl)).
  - refine (proj1 (proj1 (agent_instruction_report (loaded (agent_document []))
                            _ _ _ _ eq_refl eq_refl eq_refl eq_refl)
                     eq_refl)).
Defined.

(** C6 fails as stated.  The agent of [null_properties_document] has a
    property bag without an instruction (its [Properties] is null), yet the
    report does not label the instruction missing: [properties.get] raises
    right after the heading is printed. *)
Lemma agent_instruction_report_counterexample :
  check_bedrock_agent_config (loaded null_properties_document) =
  mkOutcome (Raise (AttributeError "'NoneType' object has no attribute 'get'"))
    (loaded null_properties_document)
    [ [T nl; T "🔍 Checking Bedrock Agent Configuration:"] ] /\
  ~ In missing_instruction_line
       (printed (check_bedrock_agent_config (loaded null_properties_document))).
Proof.
  split; [reflexivity |].
  vm_compute. intros H.
  repeat (destruct H as [H | H]; [discriminate H |]). exact H.
Qed.

Lemma report_agent_prompt_count p q l s :
  entry_is has_len (lit "Instruction") p = true ->
  dict_find (lit "PromptOverrideConfiguration") p = Some (VDict q) ->
  dict_find (lit "PromptConfigurations") q = Some (VList l) ->
  result_of (report_agent (VDict p) s) = Ok true /\
  In (prompt_count_line (Z.of_nat (List.length l)))
     (printed (report_agent (VDict p) s)) /\
  (forall n, In (prompt_count_line n) (printed (report_agent (VDict p) s)) ->
             n = Z.of_nat (List.length l)).
Proof.
  unfold entry_is, report_agent, prompt_count_line. intros Hi Ho Hq.
  cbn [contains subscript get]. rewrite Ho. revert Hi Hq.
  run_body; cbn -[lit]; intros Hi Hq;
    try discriminate Hi; try discriminate Hq;
    try (injection Hq as Hq; subst);
    (split; [reflexivity | split; [find_line | intros n Hin; each_line Hin]]).
Qed.

Lemma report_agent_no_override p s :
  entry_is has_len (lit "Instruction") p = true ->
  dict_find (lit "PromptOverrideConfiguration") p = None ->
  result_of (report_agent (VDict p) s) = Ok true /\
  In no_override_line (printed (report_agent (VDict p) s)) /\
  (forall n, ~ In (prompt_count_line n) (printed (report_agent (VDict p) s))).
Proof.
  unfold entry_is, report_agent, prompt_count_line, no_override_line. intros Hi Ho.
  cbn [contains subscript get]. rewrite Ho. revert Hi.
  run_body; cbn -[lit]; intros Hi; try discriminate Hi;
    (split; [reflexivity | split; [find_line | intros n Hin; each_line Hin]]).
Qed.

(** C7, as amended.  On a document that is a mapping whose [Resources]
    section is a mapping whose [BedrockAgent] entry is a mapping, with a
    mapping [p] as its property bag, and whose instruction, if there is one,
    has a length: when the prompt-override block is a mapping holding a
    prompt-configuration list of [K] entries, the check returns [True] and
    the report contains the line giving [K] prompt configurations and no
    line giving another count; when [p] has no prompt-override block, the
    check returns [True], the report contains the warning that there is
    none, and no line gives a count. *)
Theorem prompt_override_report s d rs a p :
  template s = VDict d ->
  dict_find (lit "Resources") d = Some (VDict rs) ->
  dict_find (lit "BedrockAgent") rs = Some (VDict a) ->
  property_bag a = VDict p ->
  entry_is has_len (lit "Instruction") p = true ->
  (forall q l,
     dict_find (lit "PromptOverrideConfiguration") p = Some (VDict q) ->
     dict_find (lit "PromptConfigurations") q = Some (VList l) ->
     result_of (check_bedrock_agent_config s) = Ok true /\
     In (prompt_count_line (Z.of_nat (List.length l)))
        (printed (check_bedrock_agent_config s)) /\
     (forall n, In (prompt_count_line n) (printed (check_bedrock_agent_config s)) ->
                n = Z.of_nat (List.length l))) /\
  (dict_find (lit "PromptOverrideConfiguration") p = None ->
   result_of (check_bedrock_agent_config s) = Ok true /\
   In no_override_line (printed (check_bedrock_agent_config s)) /\
   (forall n, ~ In (prompt_count_line n) (printed (check_bedrock_agent_config s)))).
Proof.
  intros H Hd Ha Hp Hi.
  rewrite (check_bedrock_agent_config_present s d rs a H Hd Ha), Hp.
  split.
  - intros q l. apply report_agent_prompt_count, Hi.
  - apply report_agent_no_override, Hi.
Qed.

Lemma prompt_override_report_witness :
  (result_of (check_bedrock_agent_config
                (loaded (agent_document
                           [ (Str "Instruction", Str "hello");
                             (Str "PromptOverrideConfiguration", two_prompts) ])))
   = Ok true /\
   In (prompt_count_line 2)
      (printed (check_bedrock_agent_config
                  (loaded (agent_document
                             [ (Str "Instruction", Str "hello");
                               (Str "PromptOverrideConfiguration", two_prompts) ]))))) /\
  (result_of (check_bedrock_agent_config (loaded example_document)) = Ok true /\
   In no_override_line (printed (check_bedrock_agent_config (loaded example_document)))).
Proof.
  split.
  - destruct (proj1 (prompt_override_report
                       (loaded (agent_document
                                  [ (Str "Instruction", Str "hello");
                                    (Str "PromptOverrideConfiguration", two_prompts) ]))
                       _ _ _ _ eq_refl eq_refl eq_refl eq_refl eq_refl)
                _ [VDict []; VDict []] eq_refl eq_refl) as (Hr & Hin & _).
    split; [exact Hr | exact Hin].
  - destruct (proj2 (prompt_override_report (loaded example_document)
                       _ _ _ _ eq_refl eq_refl eq_refl eq_refl eq_refl)
                eq_refl) as (Hr & Hin & _).
    split; [exact Hr | exact Hin].
Defined.

(** C7 fails as stated.  The first agent has a prompt-override block with a
    list of two prompt configurations, but its instruction is a number:
    [len] raises before the block is looked at, and no count is reported.
    The second agent has no prompt-override block and the same numeric
    instruction: the check raises instead of returning success, and the
    warning is never printed.  The third agent has a null property bag, so
    no prompt-override block either: the check raises as well, without the
    warning. *)
Lemma prompt_override_report_counterexample :
  (result_of (check_bedrock_agent_config
                (loaded (agent_document
                           [ (Str "Instruction", VInt 42);
                             (Str "PromptOverrideConfiguration", two_prompts) ])))
   = Raise (TypeError "object of type 'int' has no len()") /\
   ~ In (prompt_count_line 2)
        (printed (check_bedrock_agent_config
                    (loaded (agent_document
                               [ (Str "Instruction", VInt 42);
                                 (Str "PromptOverrideConfiguration", two_prompts) ]))))) /\
  (result_of (check_bedrock_agent_config
                (loaded (agent_document [ (Str "Instruction", VInt 42) ])))
   = Raise (TypeError "object of type 'int' has no len()") /\
   ~ In no_override_line
        (printed (check_bedrock_agent_config
                    (loaded (agent_document [ (Str "Instruction", VInt 42) ]))))) /\
  (result_of (check_bedrock_agent_config (loaded null_properties_document))
   = Raise (AttributeError "'NoneType' object has no attribute 'get'") /\
   ~ In no_override_line
        (printed (check_bedrock_agent_config (loaded null_properties_document)))).
Proof.
  repeat split; try reflexivity;
    vm_compute; intros H;
    repeat (destruct H as [H | H]; [discriminate H |]); exact H.
Qed.

(** C8, as amended.  On a document that is a mapping: [check_resources]
    returns [False] exactly when the [Resources] key is absent, and returns
    [True] whenever [Resources] is a mapping in which every expected
    resource that is declared is itself a mapping, however many expected
    resources are missing; [check_outputs] returns [False] exactly when the
    [Outputs] key is absent, and returns [True] exactly when the key is
    present with a value on which [in] is defined (a mapping, a sequence, a
    string or a set), however many expected outputs are missing. *)
Theorem section_checks_on_mappings s d :
  template s = VDict d ->
  (result_of (check_resources s) = Ok false <->
   dict_find (lit "Resources") d = None) /\
  (forall rs,
     dict_find (lit "Resources") d = Some (VDict rs) ->
     resources_shape rs = true ->
     result_of (check_resources s) = Ok true) /\
  (result_of (check_outputs s) = Ok false <->
   dict_find (lit "Outputs") d = None) /\
  (result_of (check_outputs s) = Ok true <->
   exists v, dict_find (lit "Outputs") d = Some v /\ supports_in v = true).
Proof.
  intros H. split; [| split; [| split]].
  - split.
    + intros Hf. destruct (dict_find (lit "Resources") d) as [v |] eqn:Hd;
        [| reflexivity].
      exfalso. exact (check_resources_not_false s d v H Hd Hf).
    + intros Hd. rewrite (check_resources_absent s d H Hd). reflexivity.
  - intros rs Hd Hs. destruct (check_resources_returns s d rs H Hd Hs) as [o ->].
    reflexivity.
  - split.
    + intros Hf. destruct (dict_find (lit "Outputs") d) as [v |] eqn:Hd;
        [| reflexivity].
      exfalso. revert Hf. rewrite (check_outputs_present s d v H Hd), print_then.
      apply then_true_not_false.
    + intros Hd. rewrite (check_outputs_absent s d H Hd). reflexivity.
  - split.
    + intros Ht. destruct (dict_find (lit "Outputs") d) as [v |] eqn:Hd.
      * exists v. split; [reflexivity |].
        destruct (supports_in v) eqn:Hs; [reflexivity |].
        destruct (check_outputs_raises s d v H Hd Hs) as [e He].
        rewrite He in Ht. discriminate Ht.
      * rewrite (check_outputs_absent s d H Hd) in Ht. discriminate Ht.
    + intros (v & Hd & Hs).
      destruct (check_outputs_returns s d v H Hd Hs) as [o ->]. reflexivity.
Qed.

Lemma section_checks_on_mappings_witness :
  result_of (check_resources (loaded no_agent_document)) = Ok true /\
  (result_of (check_outputs (loaded no_agent_document)) = Ok false <->
   dict_find (lit "Outputs")
     [ (Str "Resources",
         VDict [ (Str "BedrockAgentRole", VDict [(Str "Type", Str "X")]) ]) ] = None).
Proof.
  destruct (section_checks_on_mappings (loaded no_agent_document) _ eq_refl)
    as (_ & Hr & Ho & _).
  split; [eapply Hr; reflexivity | exact Ho].
Defined.

(** C8 fails as stated.  In [scalar_agent_document] the [Resources] mapping
    exists, but [check_resources] does not return success: the declared
    resource is a string, and [.get] on it raises.  In
    [null_outputs_document] the [Outputs] key exists with a null value, and
    [check_outputs] raises as well. *)
Lemma section_checks_on_mappings_counterexample :
  check_resources (loaded scalar_agent_document) =
  mkOutcome (Raise (AttributeError "'str' object has no attribute 'get'"))
    (loaded scalar_agent_document)
    [ [T nl; T "🔍 Checking Resources:"];
      [T "❌ Missing resource: "; V (Str "BedrockAgentRole")] ] /\
  check_outputs (loaded null_outputs_document) =
  mkOutcome (Raise (TypeError "argument of type 'NoneType' is not iterable"))
    (loaded null_outputs_document)
    [ [T nl; T "🔍 Checking Outputs:"] ].
Proof. split; reflexivity. Qed.

(** C9.  When the template file parses to a falsy document (null, an empty
    mapping, an empty sequence or string, zero, false), [load_template]
    stores it and returns [True], and each of the four checks, run on the
    tester it leaves, returns [False]. *)
Theorem falsy_document_fails_every_check w s text doc :
  read_text w (template_file s) = Ok text ->
  yaml_safe_load w text = Ok doc ->
  truthy doc = false ->
  result_of (load_template w s) = Ok true /\
  template (state_of (load_template w s)) = doc /\
  result_of (check_parameters (state_of (load_template w s))) = Ok false /\
  result_of (check_resources (state_of (load_template w s))) = Ok false /\
  result_of (check_bedrock_agent_config (state_of (load_template w s))) = Ok false /\
  result_of (check_outputs (state_of (load_template w s))) = Ok false.
Proof.
  intros Hr Hy Hf. rewrite (load_template_ok w s text doc Hr Hy).
  cbn [result_of state_of].
  assert (Ht : truthy (template (with_template s doc)) = false) by exact Hf.
  repeat split.
  - rewrite (check_parameters_falsy _ Ht). reflexivity.
  - rewrite (check_resources_falsy _ Ht). reflexivity.
  - rewrite (check_bedrock_agent_config_falsy _ Ht). reflexivity.
  - rewrite (check_outputs_falsy _ Ht). reflexivity.
Qed.

Lemma falsy_document_fails_every_check_witness :
  result_of (load_template (world_of VNone (Ok tt)) (init default_path)) = Ok true /\
  result_of (check_parameters
               (state_of (load_template (world_of (VDict []) (Ok tt)) (init default_path))))
  = Ok false.
Proof.
  split.
  - apply (falsy_document_fails_every_check (world_of VNone (Ok tt))
             (init default_path) "" VNone eq_refl eq_refl eq_refl).
  - apply (falsy_document_fails_every_check (world_of (VDict []) (Ok tt))
             (init default_path) "" (VDict []) eq_refl eq_refl eq_refl).
Defined.

(** C10, as amended.  Once [load_template] has returned [True], each of
    [check_parameters], [check_resources], [check_bedrock_agent_config],
    [check_outputs], [generate_summary] and [validate_template_syntax], run
    on the tester it left, leaves that tester (its stored document
    included) as it was, whether the operation returns or raises and
    whatever the world has become.  [run_all_checks] runs [load_template]
    again and leaves the tester that this second load leaves: the document
    newly parsed when the load succeeds, the document held before when it
    fails, and hence the same tester when the file and the parser are those
    of the first load. *)
Theorem only_load_template_changes_the_document w w' s :
  result_of (load_template w s) = Ok true ->
  let s1 := state_of (load_template w s) in
  state_of (check_parameters s1) = s1 /\
  state_of (check_resources s1) = s1 /\
  state_of (check_bedrock_agent_config s1) = s1 /\
  state_of (check_outputs s1) = s1 /\
  state_of (generate_summary s1) = s1 /\
  state_of (validate_template_syntax w' s1) = s1 /\
  state_of (run_all_checks w' s1) = state_of (load_template w' s1) /\
  (forall text doc,
     read_text w' (template_file s1) = Ok text ->
     yaml_safe_load w' text = Ok doc ->
     template (state_of (run_all_checks w' s1)) = doc) /\
  (result_of (load_template w' s1) <> Ok true ->
   state_of (run_all_checks w' s1) = s1) /\
  state_of (run_all_checks w s1) = s1.
Proof.
  intros H s1.
  split; [apply reads_only_check_parameters |].
  split; [apply reads_only_check_resources |].
  split; [apply reads_only_check_bedrock_agent_config |].
  split; [apply reads_only_check_outputs |].
  split; [apply reads_only_generate_summary |].
  split; [apply reads_only_validate_template_syntax |].
  split; [apply state_of_run_all_checks |].
  split; [| split].
  - intros text doc Hr Hy.
    rewrite state_of_run_all_checks, (load_template_ok w' s1 text doc Hr Hy).
    reflexivity.
  - intros Hn. rewrite state_of_run_all_checks.
    destruct (load_template_state w' s1) as [Hs | [doc Hl]]; [exact Hs |].
    contradiction Hn. rewrite Hl. reflexivity.
  - rewrite state_of_run_all_checks.
    destruct (load_template_true w s H) as (text & doc & Hr & Hy).
    assert (E : s1 = with_template s doc).
    { unfold s1. rewrite (load_template_ok w s text doc Hr Hy). reflexivity. }
    rewrite E. rewrite (load_template_ok w (with_template s doc) text doc Hr Hy).
    reflexivity.
Qed.

Lemma only_load_template_changes_the_document_witness :
  template
    (state_of
       (run_all_checks (world_of example_document (Ok tt))
          (state_of (load_template (world_of example_document (Ok tt))
                       (init default_path)))))
  = example_document.
Proof.
  destruct (only_load_template_changes_the_document
              (world_of example_document (Ok tt)) (world_of example_document (Ok tt))
              (init default_path) eq_refl)
    as (_ & _ & _ & _ & _ & _ & _ & _ & _ & H).
  rewrite H. reflexivity.
Defined.

(** C10 fails as stated.  The tester has loaded [example_document]; the
    file is then rewritten to hold the empty mapping.  [run_all_checks]
    loads again, and the stored document is no longer the one stored by the
    first load. *)
Lemma only_load_template_changes_the_document_counterexample :
  template (state_of (load_template (world_of example_document (Ok tt))
                        (init default_path)))
  = example_document /\
  template
    (state_of
       (run_all_checks rewritten_world
          (state_of (load_template (world_of example_document (Ok tt))
                       (init default_path)))))
  = VDict [].
Proof. split; vm_compute; reflexivity. Qed.

(** C4 on a template whose [Parameters:] section is left empty.  The loop
    of [run_all_checks] itself never lets an exception escape, and here it
    reports the exception of [check_parameters] by name; but
    [generate_summary], which runs outside the [try], raises on the null
    section: [run_all_checks] and [main] end with that exception, and no
    tally is ever printed. *)
Theorem run_all_checks_raises_on_null_section :
  (forall cs passed, never_raises (run_checks cs passed)) /\
  In (step_error_line "check_parameters"
        (TypeError "argument of type 'NoneType' is not iterable"))
     (printed (run_all_checks (world_of null_parameters_document (Ok tt))
                 (init default_path))) /\
  result_of (run_all_checks (world_of null_parameters_document (Ok tt))
               (init default_path))
  = Raise (TypeError "object of type 'NoneType' has no len()") /\
  result_of (main (world_of null_parameters_document (Ok tt)))
  = Raise (TypeError "object of type 'NoneType' has no len()") /\
  (forall n, ~ In (tally_line n)
                  (printed (main (world_of null_parameters_document (Ok tt))))).
Proof.
  split; [exact run_checks_never_raises |].
  split; [vm_compute; auto 20 |].
  split; [reflexivity |]. split; [reflexivity |].
  intros n H. vm_compute in H.
  repeat (destruct H as [H | H]; [discriminate H |]). exact H.
Qed.

Lemma validate_handler_is_dead w (h : exn -> M unit) s :
  try_except (validate_template_syntax w ;; ret tt) h s =
  (validate_template_syntax w ;; ret tt) s.
Proof.
  unfold try_except.
  destruct (validate_template_syntax_never_raises w s) as [b Hb].
  unfold bind.
  destruct (validate_template_syntax w s) as [[b' | e] s' o]; cbn in *;
    [reflexivity | discriminate Hb].
Qed.

(** C5 in a world without AWS credentials.  [validate_template_syntax]
    catches every exception itself, so the handler around its call in
    [main], the only place that prints the hint about credentials, never
    runs, whatever the world.  Here the failure is printed as a validation
    error, [main] returns normally, the tally stays 5/5, and the hint is
    not printed. *)
Theorem validation_failure_prints_no_hint :
  (forall w h s,
     try_except (validate_template_syntax w ;; ret tt) h s =
     (validate_template_syntax w ;; ret tt) s) /\
  validate_template_syntax (world_of example_document (Raise no_credentials))
    (loaded example_document) =
  mkOutcome (Ok false) (loaded example_document)
    [validation_error_line no_credentials] /\
  result_of (main (world_of example_document (Raise no_credentials))) = Ok tt /\
  In (tally_line 5)
     (printed (main (world_of example_document (Raise no_credentials)))) /\
  ~ In credentials_hint
       (printed (main (world_of example_document (Raise no_credentials)))).
Proof.
  split; [exact validate_handler_is_dead |].
  split; [reflexivity |]. split; [reflexivity |].
  split; [vm_compute; auto 40 |].
  intros H. vm_compute in H.
  repeat (destruct H as [H | H]; [discriminate H |]). exact H.
Qed.

(** ** Further properties of the methods *)

Lemma load_template_raise_read w s e :
  read_text w (template_file s) = Raise e ->
  load_template w s = mkOutcome (Ok false) s [load_error_line e].
Proof.
  intros Hr. unfold load_template, try_except, bind, lift, self_template_file.
  cbn. rewrite Hr. reflexivity.
Qed.

Lemma load_template_raise_parse w s text e :
  read_text w (template_file s) = Ok text ->
  yaml_safe_load w text = Raise e ->
  load_template w s = mkOutcome (Ok false) s [load_error_line e].
Proof.
  intros Hr Hy. unfold load_template, try_except, bind, lift, self_template_file.
  cbn. rewrite Hr. cbn. rewrite Hy. reflexivity.
Qed.

Lemma load_fails_outcome w s e :
  load_fails w s e ->
  load_template w s = mkOutcome (Ok false) s [load_error_line e].
Proof.
  intros [Hr | (text & Hr & Hy)].
  - apply load_template_raise_read, Hr.
  - eapply load_template_raise_parse; eassumption.
Qed.

(** X1.  When opening the template file or parsing it raises,
    [load_template] does not raise: it prints the error with the exception,
    returns [False] and leaves the tester, its stored document included, as
    it was. *)
Theorem load_template_failure w s e :
  load_fails w s e ->
  load_template w s = mkOutcome (Ok false) s [load_error_line e].
Proof. apply load_fails_outcome. Qed.

Lemma load_template_failure_witness :
  load_template missing_file_world (init default_path) =
  mkOutcome (Ok false) (init default_path)
    [load_error_line (EnvError "FileNotFoundError" "No such file or directory")].
Proof.
  apply (load_template_failure missing_file_world (init default_path)).
  left. reflexivity.
Defined.

(** X2.  On a tester that holds no document (a fresh one, or one holding a
    falsy document), when the template cannot be loaded [run_all_checks]
    does not raise: it prints the load error, the three missing-section
    lines and the bare summary head, reports 0/5 and returns [False]. *)
Theorem run_all_checks_without_template w s e :
  truthy (template s) = false ->
  load_fails w s e ->
  run_all_checks w s =
  mkOutcome (Ok false) s
    (run_head ++
     [load_error_line e; no_parameters_line; no_resources_line; no_outputs_line] ++
     summary_head ++ [tally_line 0; verdict_line 0]).
Proof.
  intros Ht Hl.
  pose proof (load_fails_outcome w s e Hl) as H0.
  pose proof (run_checks_all_return w s _ _ _ _ _ _ _ _ _ _ _ H0
                (check_parameters_falsy s Ht) (check_resources_falsy s Ht)
                (check_bedrock_agent_config_falsy s Ht) (check_outputs_falsy s Ht)) as Hc.
  rewrite (run_all_checks_outcome w s _ _ _ _ Hc (generate_summary_falsy s Ht)).
  reflexivity.
Qed.

Lemma run_all_checks_without_template_witness :
  result_of (run_all_checks missing_file_world (init default_path)) = Ok false.
Proof.
  rewrite (run_all_checks_without_template missing_file_world (init default_path)
             (EnvError "FileNotFoundError" "No such file or directory")
             eq_refl (or_introl eq_refl)).
  reflexivity.
Defined.

(** X3.  When a reload fails on a tester that already holds a well-shaped
    document, the four checks still run on that stale document: the run
    reports 4/5 and returns [False]. *)
Theorem run_all_checks_on_stale_document w s e :
  well_shaped (template s) = true ->
  load_fails w s e ->
  result_of (run_all_checks w s) = Ok false /\
  state_of (run_all_checks w s) = s /\
  In (load_error_line e) (printed (run_all_checks w s)) /\
  In (tally_line 4) (printed (run_all_checks w s)).
Proof.
  intros Hw Hl.
  destruct (well_shaped_inv _ Hw)
    as (d & ps & rs & os & agent & Ht & Hp & Hrs & Ho & Sp & Sr & Ha & Sa).
  pose proof (load_fails_outcome w s e Hl) as H0.
  destruct (check_parameters_returns s d ps Ht Hp Sp) as [o1 H1].
  destruct (check_resources_returns s d rs Ht Hrs Sr) as [o2 H2].
  destruct (check_bedrock_agent_config_returns s d rs agent Ht Hrs Ha Sa) as [o3 H3].
  destruct (check_outputs_returns s d (VDict os) Ht Ho eq_refl) as [o4 H4].
  destruct (generate_summary_returns s d Ht) as [og Hg];
    try (unfold entry_is; rewrite ?Hp, ?Hrs, ?Ho; reflexivity).
  pose proof (run_checks_all_return w s _ _ _ _ _ _ _ _ _ _ _ H0 H1 H2 H3 H4) as Hc.
  rewrite (run_all_checks_outcome w s _ _ _ _ Hc Hg).
  change (tally [false; true; true; true; true]) with 4%Z.
  cbn [result_of state_of printed]. repeat split.
  - apply in_or_app; right. apply in_or_app; left. left; reflexivity.
  - rewrite !app_assoc. apply in_or_app; right. left; reflexivity.
Qed.

Lemma run_all_checks_on_stale_document_witness :
  result_of (run_all_checks missing_file_world (loaded example_document)) = Ok false /\
  In (tally_line 4)
     (printed (run_all_checks missing_file_world (loaded example_document))).
Proof.
  assert (Hw : well_shaped (template (loaded example_document)) = true)
    by (vm_compute; reflexivity).
  destruct (run_all_checks_on_stale_document missing_file_world (loaded example_document)
              (EnvError "FileNotFoundError" "No such file or directory")
              Hw (or_introl eq_refl)) as (Hr & _ & _ & Hin).
  split; [exact Hr | exact Hin].
Defined.

(** X4.  [validate_template_syntax] never raises and never changes the
    tester.  It returns [True], printing the confirmation alone, exactly
    when creating the client, reading the file and the remote validation
    all succeed; otherwise it returns [False] and prints one line, the
    validation error with the exception of the first call that failed, in
    the order client, file, validation: a later call is not made once an
    earlier one has raised. *)
Theorem validate_template_syntax_outcome w s :
  state_of (validate_template_syntax w s) = s /\
  (result_of (validate_template_syntax w s) = Ok true <->
   exists body,
     boto3_client w = Ok tt /\
     read_text w (template_file s) = Ok body /\
     validate_template w body = Ok tt) /\
  (result_of (validate_template_syntax w s) = Ok true ->
   printed (validate_template_syntax w s) = [syntax_valid_line]) /\
  (result_of (validate_template_syntax w s) <> Ok true ->
   result_of (validate_template_syntax w s) = Ok false /\
   exists e,
     printed (validate_template_syntax w s) = [validation_error_line e] /\
     (boto3_client w = Raise e \/
      (boto3_client w = Ok tt /\ read_text w (template_file s) = Raise e) \/
      (boto3_client w = Ok tt /\
       exists body, read_text w (template_file s) = Ok body /\
                    validate_template w body = Raise e))).
Proof.
  split; [apply reads_only_validate_template_syntax |].
  unfold validate_template_syntax, try_except, bind, lift, self_template_file.
  cbn.
  destruct (boto3_client w) as [[] | e1] eqn:Hb; cbn;
    [destruct (read_text w (template_file s)) as [body | e2] eqn:Hr; cbn;
     [destruct (validate_template w body) as [[] | e3] eqn:Hv; cbn |] |].
  - split; [| split].
    + split; [intros _ | reflexivity]. exists body. split; [reflexivity | split; [reflexivity | exact Hv]].
    + reflexivity.
    + intros Hn. contradiction Hn. reflexivity.
  - split; [| split].
    + split; [discriminate |].
      intros (body' & _ & Hr' & Hv'). injection Hr' as <-.
      rewrite Hv in Hv'. discriminate Hv'.
    + discriminate.
    + intros _. split; [reflexivity |].
      exists e3. split; [reflexivity |]. right; right. split; [reflexivity |].
      exists body. split; [reflexivity | exact Hv].
  - split; [| split].
    + split; [discriminate |].
      intros (body' & _ & Hr' & _). discriminate Hr'.
    + discriminate.
    + intros _. split; [reflexivity |].
      exists e2. split; [reflexivity |]. right; left. split; reflexivity.
  - split; [| split].
    + split; [discriminate |].
      intros (body' & Hb' & _). discriminate Hb'.
    + discriminate.
    + intros _. split; [reflexivity |].
      exists e1. split; [reflexivity |]. left. reflexivity.
Qed.

(** X5.  [main] returns [None] whenever [run_all_checks] returns, whether
    the checks passed or not and whatever the remote validation answers; it
    raises exactly when [run_all_checks] raises, and then the remote
    validation is not attempted.  When it returns, what it prints is the
    report of [run_all_checks], the line announcing the validation, and the
    one line of [validate_template_syntax]. *)
Theorem main_outcome w :
  result_of (main w) =
  match result_of (run_all_checks w (init default_path)) with
  | Ok _ => Ok tt
  | Raise e => Raise e
  end /\
  printed (main w) =
  match result_of (run_all_checks w (init default_path)) with
  | Ok _ =>
      printed (run_all_checks w (init default_path)) ++
      validation_attempt_line ::
      printed (validate_template_syntax w
                 (state_of (run_all_checks w (init default_path))))
  | Raise _ => printed (run_all_checks w (init default_path))
  end.
Proof.
  unfold main, main_body.
  change (init "bedrock-agent-template.yaml") with (init default_path).
  unfold bind, try_except, print, ret.
  destruct (run_all_checks w (init default_path)) as [[b | e] s1 o];
    cbn [result_of state_of printed]; [| split; reflexivity].
  destruct (validate_template_syntax_never_raises w s1) as [v Hv].
  destruct (validate_template_syntax w s1) as [[v' | e] s2 o2];
    cbn in *; [| discriminate Hv].
  rewrite app_nil_r. split; reflexivity.
Qed.

(** *** The tally *)

Lemma run_checks_result_step name (check : M bool) cs passed s :
  run_checks ((name, check) :: cs) passed s =
  let r := run_checks cs
             (if passes (result_of (check s)) then passed + 1 else passed)%Z
             (state_of (check s)) in
  mkOutcome (result_of r) (state_of r) (step_output name (check s) ++ printed r).
Proof.
  destruct (check s) as [[b | e] s' o] eqn:H.
  - rewrite (run_checks_step name check cs passed s b s' o H).
    destruct b; reflexivity.
  - rewrite (run_checks_step_raise name check cs passed s e s' o H). reflexivity.
Qed.

Lemma run_checks_bounds cs passed s n :
  result_of (run_checks cs passed s) = Ok n ->
  (passed <= n <= passed + Z.of_nat (List.length cs))%Z.
Proof.
  revert passed s. induction cs as [| [name check] cs IH]; intros passed s.
  - cbn. intros H. injection H as <-. lia.
  - rewrite run_checks_result_step. cbv zeta. cbn [result_of]. intros H.
    apply IH in H. cbn [List.length]. rewrite Nat2Z.inj_succ.
    destruct (passes (result_of (check s))); lia.
Qed.

Lemma run_checks_counts w s :
  let s1 := state_of (load_template w s) in
  result_of (run_checks (checks w) 0 s) =
  Ok (tally [ passes (result_of (load_template w s));
              passes (result_of (check_parameters s1));
              passes (result_of (check_resources s1));
              passes (result_of (check_bedrock_agent_config s1));
              passes (result_of (check_outputs s1)) ]) /\
  state_of (run_checks (checks w) 0 s) = s1.
Proof.
  intros s1. unfold checks.
  rewrite run_checks_result_step. cbv zeta. cbn [result_of state_of]. fold s1.
  rewrite run_checks_result_step. cbv zeta. cbn [result_of state_of].
  rewrite (reads_only_check_parameters s1).
  rewrite run_checks_result_step. cbv zeta. cbn [result_of state_of].
  rewrite (reads_only_check_resources s1).
  rewrite run_checks_result_step. cbv zeta. cbn [result_of state_of].
  rewrite (reads_only_check_bedrock_agent_config s1).
  rewrite run_checks_result_step. cbv zeta. cbn [result_of state_of].
  rewrite (reads_only_check_outputs s1).
  split; reflexivity.
Qed.

(** [run_all_checks] ends the way [generate_summary] does. *)
Lemma run_all_checks_cases w s :
  let s1 := state_of (load_template w s) in
  exists passed o,
    run_checks (checks w) 0 s = mkOutcome (Ok passed) s1 o /\
    ((exists og,
        returns generate_summary s1 tt og /\
        run_all_checks w s =
        mkOutcome (Ok (Z.eqb passed 5)) s1
          (run_head ++ o ++ og ++ [tally_line passed; verdict_line passed])) \/
     (exists e,
        result_of (generate_summary s1) = Raise e /\
        result_of (run_all_checks w s) = Raise e)).
Proof.
  intros s1.
  destruct (run_checks_never_raises (checks w) 0%Z s) as [passed Hp].
  destruct (run_checks_counts w s) as [_ Hs]. fold s1 in Hs.
  assert (Hc : run_checks (checks w) 0 s =
               mkOutcome (Ok passed) s1 (printed (run_checks (checks w) 0 s))).
  { rewrite (outcome_eta (run_checks (checks w) 0 s)) at 1. rewrite Hp, Hs. reflexivity. }
  exists passed, (printed (run_checks (checks w) 0 s)). split; [exact Hc |].
  destruct (result_of (generate_summary s1)) as [[] | e] eqn:Hg.
  - left. exists (printed (generate_summary s1)).
    assert (Hr : returns generate_summary s1 tt (printed (generate_summary s1))).
    { unfold returns. rewrite (outcome_eta (generate_summary s1)) at 1.
      rewrite Hg, (reads_only_generate_summary s1). reflexivity. }
    split; [exact Hr |]. apply (run_all_checks_outcome w s _ _ _ _ Hc Hr).
  - right. exists e. split; [reflexivity |].
    unfold run_all_checks. rewrite !print_then. cbn [result_of].
    rewrite (bind_ok _ _ _ _ _ _ Hc). cbn [result_of].
    apply result_of_bind_raise, Hg.
Qed.

(** X6.  Whenever [run_all_checks] returns, the report ends with the tally
    line and the verdict line; the tally [n] lies between 0 and 5, the
    verdict says the template is ready exactly when [n] is 5, and the
    value returned is [True] exactly when [n] is 5. *)
Theorem run_all_checks_report w s b :
  result_of (run_all_checks w s) = Ok b ->
  exists n o,
    (0 <= n <= 5)%Z /\
    b = Z.eqb n 5 /\
    printed (run_all_checks w s) = run_head ++ o ++ [tally_line n; verdict_line n].
Proof.
  intros H.
  destruct (run_all_checks_cases w s) as (passed & o & Hc & [(og & _ & Hr) | (e & _ & He)]).
  - rewrite Hr in H |- *. cbn [result_of printed] in *. injection H as <-.
    exists passed, (o ++ og). split; [| split; [reflexivity |]].
    + assert (Hres : result_of (run_checks (checks w) 0 s) = Ok passed)
        by (rewrite Hc; reflexivity).
      apply run_checks_bounds in Hres. cbn in Hres. lia.
    + rewrite <- (app_assoc o og). reflexivity.
  - rewrite He in H. discriminate H.
Qed.

Lemma run_all_checks_report_witness :
  exists n o,
    (0 <= n <= 5)%Z /\
    false = Z.eqb n 5 /\
    printed (run_all_checks (world_of numeric_instruction_document (Ok tt))
               (init default_path))
    = run_head ++ o ++ [tally_line n; verdict_line n].
Proof.
  apply (run_all_checks_report (world_of numeric_instruction_document (Ok tt))
           (init default_path) false).
  vm_compute. reflexivity.
Defined.

(** X7.  The loop of [run_all_checks] never raises.  Its tally counts the
    steps that return [True], each of the four checks being judged on the
    tester that [load_template] leaves, whatever the other steps did; its
    report is what each step printed, in order, with the error line naming
    the step after each one that raised. *)
Theorem run_checks_outcome w s :
  let s1 := state_of (load_template w s) in
  run_checks (checks w) 0 s =
  mkOutcome
    (Ok (tally [ passes (result_of (load_template w s));
                 passes (result_of (check_parameters s1));
                 passes (result_of (check_resources s1));
                 passes (result_of (check_bedrock_agent_config s1));
                 passes (result_of (check_outputs s1)) ]))
    s1
    (step_output "load_template" (load_template w s) ++
     step_output "check_parameters" (check_parameters s1) ++
     step_output "check_resources" (check_resources s1) ++
     step_output "check_bedrock_agent_config" (check_bedrock_agent_config s1) ++
     step_output "check_outputs" (check_outputs s1)).
Proof.
  intros s1. unfold checks.
  rewrite run_checks_result_step. cbv zeta. fold s1.
  rewrite run_checks_result_step. cbv zeta.
  rewrite (reads_only_check_parameters s1).
  rewrite run_checks_result_step. cbv zeta.
  rewrite (reads_only_check_resources s1).
  rewrite run_checks_result_step. cbv zeta.
  rewrite (reads_only_check_bedrock_agent_config s1).
  rewrite run_checks_result_step. cbv zeta.
  rewrite (reads_only_check_outputs s1).
  cbn [run_checks ret result_of state_of printed]. rewrite app_nil_r.
  reflexivity.
Qed.

(** *** What a passing check says about the document *)

(** Runs the guard of a check on a document that is not a mapping. *)
Ltac run_guard Ht :=
  unfold no_section, bind, lift, self_template, print, ret;
  repeat (repeat (progress (cbn -[lit]; rewrite ?Ht));
    match goal with
    | |- context [if ?c then _ else _] =>
        lazymatch c with
        | context [match _ with _ => _ end] => fail
        | _ => destruct c eqn:?
        end
    | |- context [match ?x with _ => _ end] => is_var x; destruct x
    end);
  repeat (progress (cbn -[lit]; rewrite ?Ht)); try discriminate.

Lemma check_parameters_needs_mapping s :
  is_dict (template s) = false -> result_of (check_parameters s) <> Ok true.
Proof.
  intros Hd. destruct (template s) eqn:Ht; try discriminate Hd;
    unfold check_parameters; run_guard Ht.
Qed.

Lemma check_resources_needs_mapping s :
  is_dict (template s) = false -> result_of (check_resources s) <> Ok true.
Proof.
  intros Hd. destruct (template s) eqn:Ht; try discriminate Hd;
    unfold check_resources; run_guard Ht.
Qed.

Lemma check_outputs_needs_mapping s :
  is_dict (template s) = false -> result_of (check_outputs s) <> Ok true.
Proof.
  intros Hd. destruct (template s) eqn:Ht; try discriminate Hd;
    unfold check_outputs; run_guard Ht.
Qed.

Lemma check_bedrock_agent_config_needs_mapping s :
  is_dict (template s) = false ->
  result_of (check_bedrock_agent_config s) <> Ok true.
Proof.
  intros Hd. destruct (template s) eqn:Ht; try discriminate Hd;
    unfold check_bedrock_agent_config; run_guard Ht.
Qed.

Lemma check_parameter_raises v entry s :
  supports_in v = false -> exists e, result_of (check_parameter v entry s) = Raise e.
Proof.
  destruct entry as [name expected]. unfold check_parameter. intros H.
  destruct v; try discriminate H; cbn -[lit]; eexists; reflexivity.
Qed.

Lemma check_parameters_raises s d v :
  template s = VDict d -> dict_find (lit "Parameters") d = Some v ->
  supports_in v = false ->
  exists e, result_of (check_parameters s) = Raise e.
Proof.
  intros H Hd Hs. rewrite (check_parameters_present s d _ H Hd), print_then.
  cbn [result_of]. unfold required_checks. cbn [for_each].
  destruct (check_parameter_raises v
              (lit "AgentName", mkExpectation (lit "String") None) s Hs) as [e He].
  exists e. apply result_of_bind_raise, result_of_bind_raise, He.
Qed.

Lemma check_resource_raises v name s :
  supports_in v = false -> exists e, result_of (check_resource v name s) = Raise e.
Proof.
  unfold check_resource. intros H.
  destruct v; try discriminate H; cbn -[lit]; eexists; reflexivity.
Qed.

Lemma check_resources_raises s d v :
  template s = VDict d -> dict_find (lit "Resources") d = Some v ->
  supports_in v = false ->
  exists e, result_of (check_resources s) = Raise e.
Proof.
  intros H Hd Hs. rewrite (check_resources_present s d _ H Hd), print_then.
  cbn [result_of]. unfold expected_resources. cbn [for_each].
  destruct (check_resource_raises v (lit "BedrockAgentRole") s Hs) as [e He].
  exists e. apply result_of_bind_raise, result_of_bind_raise, He.
Qed.

Lemma template_is_mapping s :
  is_dict (template s) = true -> exists d, template s = VDict d.
Proof.
  destruct (template s) as [| | | | | | d | | | | |]; try discriminate. exists d; reflexivity.
Qed.

Lemma check_parameters_true_inv s :
  result_of (check_parameters s) = Ok true ->
  exists d v, template s = VDict d /\
              dict_find (lit "Parameters") d = Some v /\ supports_in v = true.
Proof.
  intros H. destruct (is_dict (template s)) eqn:Hd;
    [| exfalso; exact (check_parameters_needs_mapping s Hd H)].
  destruct (template_is_mapping s Hd) as [d Ht]. exists d.
  destruct (dict_find (lit "Parameters") d) as [v |] eqn:Hf.
  - exists v. repeat split; try assumption.
    destruct (supports_in v) eqn:Hs; [reflexivity |].
    destruct (check_parameters_raises s d v Ht Hf Hs) as [e He].
    rewrite He in H. discriminate H.
  - rewrite (check_parameters_absent s d Ht Hf) in H. discriminate H.
Qed.

Lemma check_resources_true_inv s :
  result_of (check_resources s) = Ok true ->
  exists d v, template s = VDict d /\
              dict_find (lit "Resources") d = Some v /\ supports_in v = true.
Proof.
  intros H. destruct (is_dict (template s)) eqn:Hd;
    [| exfalso; exact (check_resources_needs_mapping s Hd H)].
  destruct (template_is_mapping s Hd) as [d Ht]. exists d.
  destruct (dict_find (lit "Resources") d) as [v |] eqn:Hf.
  - exists v. repeat split; try assumption.
    destruct (supports_in v) eqn:Hs; [reflexivity |].
    destruct (check_resources_raises s d v Ht Hf Hs) as [e He].
    rewrite He in H. discriminate H.
  - rewrite (check_resources_absent s d Ht Hf) in H. discriminate H.
Qed.

Lemma check_outputs_true_inv s :
  result_of (check_outputs s) = Ok true ->
  exists d v, template s = VDict d /\
              dict_find (lit "Outputs") d = Some v /\ supports_in v = true.
Proof.
  intros H. destruct (is_dict (template s)) eqn:Hd;
    [| exfalso; exact (check_outputs_needs_mapping s Hd H)].
  destruct (template_is_mapping s Hd) as [d Ht]. exists d.
  destruct (dict_find (lit "Outputs") d) as [v |] eqn:Hf.
  - exists v. repeat split; try assumption.
    destruct (supports_in v) eqn:Hs; [reflexivity |].
    destruct (check_outputs_raises s d v Ht Hf Hs) as [e He].
    rewrite He in H. discriminate H.
  - rewrite (check_outputs_absent s d Ht Hf) in H. discriminate H.
Qed.

Lemma check_bedrock_agent_config_true_inv s :
  result_of (check_bedrock_agent_config s) = Ok true ->
  exists d rs a,
    template s = VDict d /\
    dict_find (lit "Resources") d = Some (VDict rs) /\
    dict_find (lit "BedrockAgent") rs = Some (VDict a) /\
    is_dict (property_bag a) = true.
Proof.
  intros H. destruct (is_dict (template s)) eqn:Hd;
    [| exfalso; exact (check_bedrock_agent_config_needs_mapping s Hd H)].
  destruct (template_is_mapping s Hd) as [d Ht]. exists d.
  destruct (dict_find (lit "Resources") d) as [res |] eqn:Hf;
    [| rewrite (check_bedrock_agent_config_absent s d Ht Hf) in H; discriminate H].
  revert H. unfold check_bedrock_agent_config.
  rewrite (bind_no_section_dict _ _ _ _ Ht), Hf, bind_self_template, Ht.
  cbn [subscript]. rewrite Hf, bind_lift_ok.
  destruct res as [| | | | | | rs | | | | |];
    try (unfold bind, lift, print, ret; cbn -[lit];
         repeat (match goal with
                 | |- context [if ?c then _ else _] => destruct c eqn:?
                 end; cbn -[lit]);
         intros H; discriminate H).
  cbn [contains]. destruct (dict_find (lit "BedrockAgent") rs) as [agent |] eqn:Ha;
    rewrite bind_lift_ok; cbn [negb];
    [| unfold bind, print, ret; cbn; intros H; discriminate H].
  cbn [subscript]. rewrite Ha, bind_lift_ok.
  destruct agent as [| | | | | | a | | | | |];
    try (unfold bind, lift; cbn -[lit]; intros H; discriminate H).
  intros H. exists rs, a. split; [reflexivity |]. split; [reflexivity |].
  split; [exact Ha |].
  rewrite get_dict, bind_lift_ok in H. fold (property_bag a) in H.
  destruct (property_bag a); try reflexivity;
    revert H; unfold report_agent; rewrite print_then; cbn [result_of];
    unfold bind, lift; cbn -[lit]; intros H; discriminate H.
Qed.

(** X8.  A check returns [True] only on a document that is a mapping and
    holds the section the check looks at, with a value on which [in] is
    defined (a string, a sequence, a mapping or a set);
    [check_bedrock_agent_config] returns [True] only
    when, moreover, [Resources] is a mapping whose [BedrockAgent] entry is a
    mapping with a mapping as property bag. *)
Theorem passing_check_needs_its_section s :
  (result_of (check_parameters s) = Ok true ->
   exists d v, template s = VDict d /\
               dict_find (lit "Parameters") d = Some v /\ supports_in v = true) /\
  (result_of (check_resources s) = Ok true ->
   exists d v, template s = VDict d /\
               dict_find (lit "Resources") d = Some v /\ supports_in v = true) /\
  (result_of (check_outputs s) = Ok true ->
   exists d v, template s = VDict d /\
               dict_find (lit "Outputs") d = Some v /\ supports_in v = true) /\
  (result_of (check_bedrock_agent_config s) = Ok true ->
   exists d rs a,
     template s = VDict d /\
     dict_find (lit "Resources") d = Some (VDict rs) /\
     dict_find (lit "BedrockAgent") rs = Some (VDict a) /\
     is_dict (property_bag a) = true).
Proof.
  split; [apply check_parameters_true_inv |].
  split; [apply check_resources_true_inv |].
  split; [apply check_outputs_true_inv |].
  apply check_bedrock_agent_config_true_inv.
Qed.

(** *** When the summary goes through *)

Lemma summary_count_raises s d name :
  template s = VDict d -> entry_is has_len (lit name) d = false ->
  exists e, result_of (summary_count name s) = Raise e.
Proof.
  intros H Hs. unfold summary_count, entry_is in *.
  rewrite bind_self_template, H. cbn [contains].
  destruct (dict_find (lit name) d) as [v |] eqn:Hd; [| discriminate Hs].
  rewrite bind_lift_ok. cbn [when]. rewrite bind_self_template, H.
  cbn [subscript]. rewrite Hd, bind_lift_ok.
  destruct v; try discriminate Hs; cbn -[lit]; eexists; reflexivity.
Qed.

Lemma result_of_bind_returns {A B} (m : M A) (k : A -> M B) s a o :
  returns m s a o -> result_of (bind m k s) = result_of (k a s).
Proof. intros H. rewrite (bind_ok _ _ _ _ _ _ H). reflexivity. Qed.

Lemma generate_summary_raises s :
  summary_safe (template s) = false ->
  exists e, result_of (generate_summary s) = Raise e.
Proof.
  unfold summary_safe. intros H.
  destruct (truthy (template s)) eqn:Ht; [| discriminate H].
  cbn [negb orb] in H.
  unfold generate_summary. rewrite !print_then. cbn [result_of].
  rewrite bind_self_template, Ht. cbn [when].
  destruct (template s) as [| | | | | | d | | | | |] eqn:Hd;
    try (cbn -[lit]; eexists; reflexivity).
  rewrite !get_dict, bind_lift_ok, print_then. cbn [result_of].
  rewrite bind_lift_ok, print_then. cbn [result_of].
  destruct (entry_is has_len (lit "Parameters") d) eqn:Hp.
  - destruct (summary_count_returns s d "Parameters" Hd Hp) as [o1 H1].
    rewrite (result_of_bind_returns _ _ _ _ _ H1).
    destruct (entry_is has_len (lit "Resources") d) eqn:Hr.
    + destruct (summary_count_returns s d "Resources" Hd Hr) as [o2 H2].
      rewrite (result_of_bind_returns _ _ _ _ _ H2).
      cbn [andb] in H. apply (summary_count_raises s d "Outputs" Hd H).
    + destruct (summary_count_raises s d "Resources" Hd Hr) as [e He].
      exists e. apply result_of_bind_raise, He.
  - destruct (summary_count_raises s d "Parameters" Hd Hp) as [e He].
    exists e. apply result_of_bind_raise, He.
Qed.

Lemma generate_summary_safe s :
  summary_safe (template s) = true ->
  exists o, returns generate_summary s tt o.
Proof.
  unfold summary_safe. intros H.
  destruct (truthy (template s)) eqn:Ht;
    [| eexists; apply generate_summary_falsy, Ht].
  cbn [negb orb] in H.
  destruct (template s) as [| | | | | | d | | | | |] eqn:Hd; try discriminate H.
  apply andb_prop in H. destruct H as [H Ho].
  apply andb_prop in H. destruct H as [Hp Hr].
  apply (generate_summary_returns s d Hd Hp Hr Ho).
Qed.

(** X9.  [run_all_checks] returns, rather than raising, exactly when the
    document held after the load step is falsy or is a mapping whose
    [Parameters], [Resources] and [Outputs] values, where present, have a
    length (strings, sequences, mappings, sets, bytes).  On every other
    document (a top-level sequence or string, a section left empty or
    holding a number or a date) the exception of [generate_summary]
    escapes. *)
Theorem run_all_checks_returns_iff w s :
  (exists b, result_of (run_all_checks w s) = Ok b) <->
  summary_safe (template (state_of (load_template w s))) = true.
Proof.
  destruct (run_all_checks_cases w s)
    as (passed & o & Hc & [(og & Hg & Hr) | (e & Hg & He)]).
  - split.
    + intros _.
      destruct (summary_safe (template (state_of (load_template w s)))) eqn:Hs;
        [reflexivity |].
      destruct (generate_summary_raises _ Hs) as [e He].
      rewrite Hg in He. discriminate He.
    + intros _. rewrite Hr. eexists; reflexivity.
  - split.
    + intros [b Hb]. rewrite He in Hb. discriminate Hb.
    + intros Hs. destruct (generate_summary_safe _ Hs) as [og Hog].
      rewrite Hog in Hg. discriminate Hg.
Qed.

Lemma tally_five b0 b1 b2 b3 b4 :
  Z.eqb (tally [b0; b1; b2; b3; b4]) 5 = b0 && b1 && b2 && b3 && b4.
Proof. destruct b0, b1, b2, b3, b4; reflexivity. Qed.

(** X10.  [run_all_checks] returns [True] exactly when each of the five
    steps, run on the tester that [load_template] leaves, returns [True];
    in that case the summary cannot raise. *)
Theorem run_all_checks_true_iff w s :
  let s1 := state_of (load_template w s) in
  result_of (run_all_checks w s) = Ok true <->
  passes (result_of (load_template w s)) &&
  passes (result_of (check_parameters s1)) &&
  passes (result_of (check_resources s1)) &&
  passes (result_of (check_bedrock_agent_config s1)) &&
  passes (result_of (check_outputs s1)) = true.
Proof.
  intros s1. rewrite <- tally_five.
  destruct (run_checks_counts w s) as [Hn _]. fold s1 in Hn.
  destruct (run_all_checks_cases w s)
    as (passed & o & Hc & [(og & Hg & Hr) | (e & Hg & He)]); fold s1 in Hc, Hg.
  - rewrite Hc in Hn. cbn [result_of] in Hn. injection Hn as Hn. rewrite <- Hn.
    rewrite Hr. cbn [result_of]. split; intros H.
    + injection H as H. exact H.
    + rewrite H. reflexivity.
  - rewrite He. split; [discriminate |].
    intros H. exfalso. rewrite tally_five in H.
    repeat (apply andb_prop in H; destruct H as [H ?]).
    assert (Hpass : forall r, passes r = true -> r = Ok true).
    { intros [[|] | e']; cbn; intros Hx; try discriminate Hx; reflexivity. }
    match goal with Hx : passes (result_of (check_parameters s1)) = true |- _ =>
      destruct (check_parameters_true_inv s1 (Hpass _ Hx)) as (d & vp & Ht & Hp & Sp) end.
    match goal with Hx : passes (result_of (check_resources s1)) = true |- _ =>
      destruct (check_resources_true_inv s1 (Hpass _ Hx)) as (d' & vr & Ht' & Hrs & Sr) end.
    match goal with Hx : passes (result_of (check_outputs s1)) = true |- _ =>
      destruct (check_outputs_true_inv s1 (Hpass _ Hx)) as (d'' & vo & Ht'' & Ho & So) end.
    rewrite Ht in Ht', Ht''. injection Ht' as <-. injection Ht'' as <-.
    destruct (generate_summary_returns s1 d Ht) as [og Hog];
      try (unfold entry_is; rewrite ?Hp, ?Hrs, ?Ho; apply supports_in_has_len;
         assumption).
    rewrite Hog in Hg. discriminate Hg.
Qed.

(** *** The warnings of check_parameters *)

(** Settles a goal from [H : In l (printed ...)] over an explicit report,
    closing the case of each printed line that can be [l] with [tac]. *)
Ltac line_cases H tac :=
  cbn -[lit] in H;
  repeat (destruct H as [H | H];
          [first [ discriminate H
                 | injection H; intros; subst; solve [tac] ] |]);
  contradiction.

(** X11.  For a declared parameter that is a mapping, the loop body of
    [check_parameters] returns normally and prints the type-mismatch
    warning exactly when the declared [Type] (or [None] when there is none)
    is not the expected type string; the warning names the expected type
    and the type found. *)
Theorem check_parameter_type_warning ps name expected pm s :
  dict_find name ps = Some (VDict pm) ->
  result_of (check_parameter (VDict ps) (name, expected) s) = Ok tt /\
  (In (type_mismatch_line (exp_Type expected) (entry_or (lit "Type") pm VNone))
      (printed (check_parameter (VDict ps) (name, expected) s)) <->
   eq_str (entry_or (lit "Type") pm VNone) (exp_Type expected) = false) /\
  (forall e g,
     In (type_mismatch_line e g)
        (printed (check_parameter (VDict ps) (name, expected) s)) ->
     e = exp_Type expected /\ g = entry_or (lit "Type") pm VNone).
Proof.
  intros H. unfold check_parameter, type_mismatch_line, entry_or.
  cbn [contains subscript]. rewrite H. cbn [get negb].
  run_body; cbn -[lit];
    (split; [reflexivity |
     split; [split; [intros Hin | intros Heq] | intros e g Hin]]);
    first [ reflexivity
          | discriminate Heq
          | solve [find_line]
          | line_cases Hin ltac:(repeat split; reflexivity) ].
Qed.

Lemma check_parameter_type_warning_witness :
  In (type_mismatch_line (lit "String") (Str "Number"))
     (printed (check_parameter
                 (VDict [ (Str "AgentName", VDict [(Str "Type", Str "Number")]) ])
                 (lit "AgentName", mkExpectation (lit "String") None)
                 (init default_path))).
Proof.
  refine (proj2 (proj1 (proj2 (check_parameter_type_warning
                                 [ (Str "AgentName", VDict [(Str "Type", Str "Number")]) ]
                                 (lit "AgentName") (mkExpectation (lit "String") None)
                                 [(Str "Type", Str "Number")] (init default_path)
                                 eq_refl))) eq_refl).
Defined.



(** *** The reports of check_resources, check_outputs and generate_summary *)

Lemma for_each_exact {A} (xs : list A) (body : A -> M unit) s
      (lines_of : A -> list line) :
  (forall x, In x xs -> returns (body x) s tt (lines_of x)) ->
  returns (for_each xs body) s tt (flat_map lines_of xs).
Proof.
  induction xs as [| x xs IH]; intros H; cbn [for_each flat_map].
  - reflexivity.
  - eapply bind_returns; [apply H; left; reflexivity |].
    apply IH. intros y Hy. apply H. right. exact Hy.
Qed.

Lemma check_resource_exact rs name s :
  entry_is is_dict name rs = true ->
  returns (check_resource (VDict rs) name) s tt [resource_line rs name].
Proof.
  unfold entry_is, check_resource, resource_line, returns. intros H.
  cbn [contains subscript].
  destruct (dict_find name rs) as [[| | | | | | r | | | | |] |]; try discriminate H.
  - rewrite !bind_lift_ok, get_dict, bind_lift_ok. reflexivity.
  - rewrite bind_lift_ok. reflexivity.
Qed.

(** X13.  On a mapping whose [Resources] section is a mapping in which every
    declared expected resource is a mapping, [check_resources] returns
    [True] and prints the heading followed by one line for each of
    BedrockAgentRole, BedrockAgent, BedrockAgentAlias and AgentLogGroup, in
    that order: the resource with its [Type] ("Unknown" when it has none),
    or the resource reported missing. *)
Theorem check_resources_report s d rs :
  template s = VDict d ->
  dict_find (lit "Resources") d = Some (VDict rs) ->
  resources_shape rs = true ->
  check_resources s =
  mkOutcome (Ok true) s
    ([T nl; T "🔍 Checking Resources:"] :: map (resource_line rs) expected_resources).
Proof.
  intros H Hd Hs. rewrite (check_resources_present s d _ H Hd).
  assert (Hloop : returns (for_each expected_resources (check_resource (VDict rs))) s tt
                    (flat_map (fun name => [resource_line rs name]) expected_resources)).
  { apply for_each_exact. intros x Hx. apply check_resource_exact.
    unfold resources_shape in Hs. rewrite forallb_forall in Hs. apply Hs, Hx. }
  rewrite print_then, (bind_ok _ _ _ _ _ _ Hloop). reflexivity.
Qed.

Lemma check_resources_report_witness :
  check_resources (loaded no_agent_document) =
  mkOutcome (Ok true) (loaded no_agent_document)
    ([T nl; T "🔍 Checking Resources:"]
     :: map (resource_line [ (Str "BedrockAgentRole", VDict [(Str "Type", Str "X")]) ])
            expected_resources).
Proof.
  apply (check_resources_report (loaded no_agent_document) _ _ eq_refl eq_refl).
  reflexivity.
Defined.

Lemma check_output_exact os name s :
  returns (check_output (VDict os) name) s tt [output_line os name].
Proof.
  unfold check_output, output_line, returns. cbn [contains].
  destruct (dict_find name os); rewrite bind_lift_ok; reflexivity.
Qed.

(** X14.  On a mapping whose [Outputs] section is a mapping,
    [check_outputs] returns [True] and prints the heading followed by one
    line for each of AgentId, AgentAliasId, AgentRoleArn, AgentAliasArn and
    FoundationModelUsed, in that order: the output confirmed when its key is
    present, whatever its value, and reported missing otherwise. *)
Theorem check_outputs_report s d os :
  template s = VDict d ->
  dict_find (lit "Outputs") d = Some (VDict os) ->
  check_outputs s =
  mkOutcome (Ok true) s
    ([T nl; T "🔍 Checking Outputs:"] :: map (output_line os) expected_outputs).
Proof.
  intros H Hd. rewrite (check_outputs_present s d _ H Hd).
  assert (Hloop : returns (for_each expected_outputs (check_output (VDict os))) s tt
                    (flat_map (fun name => [output_line os name]) expected_outputs)).
  { apply for_each_exact. intros x _. apply check_output_exact. }
  rewrite print_then, (bind_ok _ _ _ _ _ _ Hloop). reflexivity.
Qed.

Lemma check_outputs_report_witness :
  check_outputs (loaded example_document) =
  mkOutcome (Ok true) (loaded example_document)
    ([T nl; T "🔍 Checking Outputs:"]
     :: map (fun name => [T "✅ "; V (VStr name)]) expected_outputs).
Proof.
  rewrite (check_outputs_report (loaded example_document) _ _ eq_refl eq_refl).
  reflexivity.
Defined.




(** *** The report on the agent *)





(** X17.  In a fixed world, loading again changes nothing: run on the
    tester that a first [load_template] leaves, a second [load_template]
    returns the same value, prints the same line and leaves the same
    tester, whether the first one succeeded or failed. *)
Theorem load_template_idempotent w s :
  load_template w (state_of (load_template w s)) = load_template w s.
Proof.
  destruct (read_text w (template_file s)) as [text | e] eqn:Hr;
    [destruct (yaml_safe_load w text) as [doc | e] eqn:Hy |].
  - rewrite (load_template_ok w s text doc Hr Hy). cbn [state_of].
    apply (load_template_ok w (with_template s doc) text doc Hr Hy).
  - rewrite (load_template_raise_parse w s text e Hr Hy). cbn [state_of].
    apply (load_template_raise_parse w s text e Hr Hy).
  - rewrite (load_template_raise_read w s e Hr). cbn [state_of].
    apply (load_template_raise_read w s e Hr).
Qed.

Lemma passing_check_needs_its_section_witness :
  exists d v, template (loaded example_document) = VDict d /\
              dict_find (lit "Parameters") d = Some v /\ supports_in v = true.
Proof.
  apply (proj1 (passing_check_needs_its_section (loaded example_document))).
  vm_compute. reflexivity.
Defined.
